(** * flet-iap: the in-app-purchase control, its event decoding and commands

    A shallow embedding of [src/flet_iap/iap.py]: the two enumerations, the
    [ProductDetails] and [PurchaseEvent] constructors and the six commands of
    the [InAppPurchase] control, followed by the properties the
    specification states about them.

    Layout:
    - [Py]: the Python values the module handles (the [Any] of its type
      hints), truthiness, exceptions and the result of a call;
    - the two enumerations and the lookup of a member by value;
    - [Json]: [json.loads] of the Python standard library, and the writer
      of a record of strings;
    - the framework side (pages, attributes, events), then
      [ProductDetails], [PurchaseEvent] and the six commands;
    - [JsonFacts]: the decoder terminates within its fuel and reads back
      what the writer wrote;
    - the properties of the decoding, the guard and the commands, each
      followed by its instance on a concrete input. *)

From Stdlib Require Import ZArith NArith String Ascii List Bool Lia.
From Stdlib Require Import Floats.SpecFloat.
From stdpp Require Import base option gmap strings list.

Set Warnings "-register-all".
Set Default Proof Using "Type".
Local Open Scope string_scope.

(* ===================================================================== *)
(** * Python values *)
(* ===================================================================== *)

Module Py.

(** The values that flow through [iap.py]: what [json.loads] produces and
    what a caller may pass where the hints say [Any], [Optional[...]] or
    [list[str]] (hints are not enforced at run time).  A [str] is held as
    the UTF-8 bytes of its text; a [float] is an IEEE binary64 number
    ([spec_float] at precision 53); a [dict] with [str] keys is a [gmap]. *)
Inductive pyval :=
| PyNone
| PyBool (b : bool)
| PyInt (n : Z)
| PyFloat (f : spec_float)
| PyStr (s : string)
| PyList (l : list pyval)
| PyDict (d : gmap string pyval).

(** [bool(v)]: the truth value Python gives [v] in [if v], [not v] and
    [a or b]. *)
Definition truthy (v : pyval) : bool :=
  match v with
  | PyNone => false
  | PyBool b => b
  | PyInt n => negb (n =? 0)%Z
  | PyFloat (S754_zero _) => false
  | PyFloat _ => true
  | PyStr s => negb (String.eqb s "")
  | PyList l => match l with [] => false | _ :: _ => true end
  | PyDict d => negb (size d =? 0)%nat
  end.

(** [a or b]: [a] when it is truthy, [b] otherwise. *)
Definition py_or (a b : pyval) : pyval := if truthy a then a else b.

(** [n == f] for an [int] and a [float]: the comparison is exact. *)
Definition int_eq_float (n : Z) (f : spec_float) : bool :=
  match f with
  | S754_zero _ => (n =? 0)%Z
  | S754_finite s m e =>
      let v := if s then Z.neg m else Z.pos m in
      if (0 <=? e)%Z then (n =? v * 2 ^ e)%Z else (n * 2 ^ (- e) =? v)%Z
  | _ => false
  end.

(** A [bool] is the [int] 0 or 1. *)
Definition bool_int (b : bool) : Z := if b then 1%Z else 0%Z.

(** [a == b]: numbers compare by value across [bool], [int] and [float]
    (a NaN equals nothing), strings by their text, lists item by item,
    dicts key by key; values of different kinds are unequal. *)
Fixpoint py_eq (a b : pyval) : bool :=
  match a with
  | PyNone => match b with PyNone => true | _ => false end
  | PyBool x =>
      match b with
      | PyBool y => Bool.eqb x y
      | PyInt n => (bool_int x =? n)%Z
      | PyFloat f => int_eq_float (bool_int x) f
      | _ => false
      end
  | PyInt m =>
      match b with
      | PyBool y => (m =? bool_int y)%Z
      | PyInt n => (m =? n)%Z
      | PyFloat f => int_eq_float m f
      | _ => false
      end
  | PyFloat f =>
      match b with
      | PyBool y => int_eq_float (bool_int y) f
      | PyInt n => int_eq_float n f
      | PyFloat g => SFeqb f g
      | _ => false
      end
  | PyStr s => match b with PyStr t => String.eqb s t | _ => false end
  | PyList l =>
      match b with
      | PyList m =>
          (fix all_eq (l m : list pyval) : bool :=
             match l, m with
             | [], [] => true
             | x :: l', y :: m' => py_eq x y && all_eq l' m'
             | _, _ => false
             end) l m
      | _ => false
      end
  | PyDict d =>
      match b with
      | PyDict e =>
          (size d =? size e)%nat &&
          map_fold (fun k v acc =>
                      acc && match e !! k with Some w => py_eq v w | None => false end)
                   true d
      | _ => false
      end
  end.

(** The exceptions the module raises or lets through.  [EnumValueError cls v]
    is the [ValueError] of an [Enum] lookup that finds no member with value
    [v]; [IntDigitsError n] is the [ValueError] of [int] on a literal of [n]
    digits, more than the interpreter converts; [JSONDecodeError] is a
    subclass of [ValueError] too.  [TimeoutError] is what the framework's
    [invoke_method] raises when it waits for a result and none arrives in
    time. *)
Inductive exn :=
| AssertionError (msg : string)
| Exception (msg : string)
| ValueError (msg : string)
| EnumValueError (cls : string) (v : pyval)
| IntDigitsError (digits : nat)
| JSONDecodeError
| RecursionError
| AttributeError (attr : string)
| TimeoutError (msg : string)
| BridgeError (msg : string).

(** The outcome of a call: a value, or a raised exception. *)
Inductive result (A : Type) :=
| Ok (a : A)
| Raise (e : exn).
Arguments Ok {A} a.
Arguments Raise {A} e.

Definition bind {A B} (r : result A) (k : A -> result B) : result B :=
  match r with
  | Ok a => k a
  | Raise e => Raise e
  end.

Definition returns {A} (r : result A) : bool :=
  match r with Ok _ => true | Raise _ => false end.

(** [d.get(key, default)] on a [dict]. *)
Definition dict_get (d : gmap string pyval) (key : string) (dflt : pyval) : pyval :=
  match d !! key with
  | Some v => v
  | None => dflt
  end.

End Py.
Import Py.

Notation "x <- r ;; k" := (Py.bind r (fun x => k))
  (at level 100, r at next level, right associativity).

(* ===================================================================== *)
(** * The enumerations of [iap.py] *)
(* ===================================================================== *)

Inductive PurchaseStatus := PENDING | PURCHASED | ERROR | RESTORED | CANCELED.

Inductive ProductType := CONSUMABLE | NON_CONSUMABLE | SUBSCRIPTION.

(** The [value] of each member. *)
Definition PurchaseStatus_value (m : PurchaseStatus) : string :=
  match m with
  | PENDING => "pending"
  | PURCHASED => "purchased"
  | ERROR => "error"
  | RESTORED => "restored"
  | CANCELED => "canceled"
  end.

Definition ProductType_value (m : ProductType) : string :=
  match m with
  | CONSUMABLE => "consumable"
  | NON_CONSUMABLE => "non_consumable"
  | SUBSCRIPTION => "subscription"
  end.

Definition PurchaseStatus_members : list PurchaseStatus :=
  [PENDING; PURCHASED; ERROR; RESTORED; CANCELED].

Definition ProductType_members : list ProductType :=
  [CONSUMABLE; NON_CONSUMABLE; SUBSCRIPTION].

(** [Cls(v)] on an [Enum] class: the member whose value equals [v], and a
    [ValueError] when there is none (neither class defines [_missing_]).
    Every member value is a [str], and a [str] only equals a [str]. *)
Definition enum_lookup {M} (cls : string) (value_of : M -> string)
    (members : list M) (v : pyval) : result M :=
  match v with
  | PyStr s =>
      match List.find (fun m => String.eqb (value_of m) s) members with
      | Some m => Ok m
      | None => Raise (EnumValueError cls v)
      end
  | _ => Raise (EnumValueError cls v)
  end.

Definition PurchaseStatus_call : pyval -> result PurchaseStatus :=
  enum_lookup "PurchaseStatus" PurchaseStatus_value PurchaseStatus_members.

Definition ProductType_call : pyval -> result ProductType :=
  enum_lookup "ProductType" ProductType_value ProductType_members.

(** [s] is the value of one of the five statuses. *)
Definition recognized_status (s : string) : Prop :=
  exists m, PurchaseStatus_value m = s.

(* ===================================================================== *)
(** * [json.loads] *)
(* ===================================================================== *)

(** The decoder of Python's [json] package (its pure-Python form,
    [json/decoder.py] and [json/scanner.py]), which [iap.py] calls on every
    payload.  It is library code: the functions keep the library's names
    and follow its control flow.  Every syntax error is a
    [JSONDecodeError]; the position and message it carries are left out.
    An integer literal of more digits than [int] converts raises the
    [ValueError] of [int].  The interpreter also raises [RecursionError]
    on text nested deeper than its call stack allows at the time of the
    call; that depth is not a constant of the language and is not
    modelled, and no property below rests on deeply nested text being
    accepted. *)
Module Json.

Definition dquote : ascii := "034"%char.
Definition backslash : ascii := "\"%char.

Definition code (c : ascii) : N := N_of_ascii c.
Definition chr (n : N) : ascii := ascii_of_N n.

(** [WHITESPACE]: spaces, tabs, line feeds and carriage returns. *)
Definition is_ws (c : ascii) : bool :=
  let n := code c in
  (n =? 32)%N || (n =? 9)%N || (n =? 10)%N || (n =? 13)%N.

Fixpoint skip_ws (s : string) : string :=
  match s with
  | String c r => if is_ws c then skip_ws r else s
  | EmptyString => s
  end.

Definition is_digit (c : ascii) : bool :=
  let n := code c in (48 <=? n)%N && (n <=? 57)%N.

Definition digit_val (c : ascii) : N := (code c - 48)%N.

Definition hex_val (c : ascii) : option N :=
  let n := code c in
  if (48 <=? n)%N && (n <=? 57)%N then Some (n - 48)%N
  else if (65 <=? n)%N && (n <=? 70)%N then Some (n - 55)%N
  else if (97 <=? n)%N && (n <=? 102)%N then Some (n - 87)%N
  else None.

(** [_decode_uXXXX]: exactly four hexadecimal digits. *)
Definition hex4 (a b c d : ascii) : option N :=
  match hex_val a, hex_val b, hex_val c, hex_val d with
  | Some x, Some y, Some z, Some w => Some (((x * 16 + y) * 16 + z) * 16 + w)%N
  | _, _, _, _ => None
  end.

(** The UTF-8 bytes of the character [chr(cp)]; a lone surrogate, which a
    Python [str] can hold, takes the three-byte form. *)
Definition utf8 (cp : N) : string :=
  if (cp <? 0x80)%N then String (chr cp) ""
  else if (cp <? 0x800)%N then
    String (chr (0xC0 + cp / 64)) (String (chr (0x80 + cp mod 64)) "")
  else if (cp <? 0x10000)%N then
    String (chr (0xE0 + cp / 4096))
      (String (chr (0x80 + (cp / 64) mod 64)) (String (chr (0x80 + cp mod 64)) ""))
  else
    String (chr (0xF0 + cp / 262144))
      (String (chr (0x80 + (cp / 4096) mod 64))
         (String (chr (0x80 + (cp / 64) mod 64)) (String (chr (0x80 + cp mod 64)) ""))).

(** The [BACKSLASH] table of one-character escapes. *)
Definition simple_escape (e : ascii) : option ascii :=
  if Ascii.eqb e dquote then Some dquote
  else if Ascii.eqb e backslash then Some backslash
  else if Ascii.eqb e "/" then Some "/"%char
  else if Ascii.eqb e "b" then Some (chr 8)
  else if Ascii.eqb e "f" then Some (chr 12)
  else if Ascii.eqb e "n" then Some (chr 10)
  else if Ascii.eqb e "r" then Some (chr 13)
  else if Ascii.eqb e "t" then Some (chr 9)
  else None.

Definition is_high_surrogate (u : N) : bool := (0xd800 <=? u)%N && (u <=? 0xdbff)%N.
Definition is_low_surrogate (u : N) : bool := (0xdc00 <=? u)%N && (u <=? 0xdfff)%N.

Definition join_surrogates (hi lo : N) : N :=
  (0x10000 + ((hi - 0xd800) * 1024 + (lo - 0xdc00)))%N.

Definition prepend (pre : string) (r : option (string * string)) : option (string * string) :=
  match r with
  | Some (str, rest) => Some (pre +:+ str, rest)
  | None => None
  end.

(** [py_scanstring] in strict mode, from just after the opening quote: the
    decoded text and what follows the closing quote; [None] for an
    unterminated string, a control character or a bad escape. *)
Fixpoint py_scanstring (s : string) : option (string * string) :=
  match s with
  | EmptyString => None
  | String c r =>
      if Ascii.eqb c dquote then Some ("", r)
      else if Ascii.eqb c backslash then
        match r with
        | EmptyString => None
        | String e r1 =>
            if Ascii.eqb e "u" then
              match r1 with
              | String h1 (String h2 (String h3 (String h4 r2))) =>
                  match hex4 h1 h2 h3 h4 with
                  | None => None
                  | Some uni =>
                      match r2 with
                      | String b1 (String u1 (String l1 (String l2 (String l3 (String l4 r3))))) =>
                          if is_high_surrogate uni && Ascii.eqb b1 backslash && Ascii.eqb u1 "u" then
                            match hex4 l1 l2 l3 l4 with
                            | None => None
                            | Some uni2 =>
                                if is_low_surrogate uni2
                                then prepend (utf8 (join_surrogates uni uni2)) (py_scanstring r3)
                                else prepend (utf8 uni) (py_scanstring r2)
                            end
                          else prepend (utf8 uni) (py_scanstring r2)
                      | _ => prepend (utf8 uni) (py_scanstring r2)
                      end
                  end
              | _ => None
              end
            else
              match simple_escape e with
              | Some x => prepend (String x "") (py_scanstring r1)
              | None => None
              end
        end
      else if (code c <? 32)%N then None
      else prepend (String c "") (py_scanstring r)
  end.

(** The longest run of decimal digits at the head of [s], and the rest. *)
Fixpoint take_digits (s : string) : string * string :=
  match s with
  | String c r =>
      if is_digit c then let '(ds, rest) := take_digits r in (String c ds, rest)
      else ("", s)
  | EmptyString => ("", s)
  end.

Fixpoint digits_value (acc : N) (ds : string) : N :=
  match ds with
  | String c r => digits_value (acc * 10 + digit_val c)%N r
  | EmptyString => acc
  end.

(** [float(text)] for a decimal literal [(-1)^neg * m * 10^e], rounded to
    the nearest binary64 number (ties to even), overflowing to infinity. *)
Definition prec : Z := 53.
Definition emax : Z := 1024.

Definition float_of_decimal (neg : bool) (m : N) (e : Z) : spec_float :=
  match m with
  | N0 => S754_zero neg
  | Npos p =>
      if (0 <=? e)%Z then
        let n := (Z.pos p * 10 ^ e)%Z in
        binary_normalize prec emax (if neg then - n else n)%Z 0 false
      else
        SFdiv prec emax (S754_finite neg p 0)
          (S754_finite false (Z.to_pos (10 ^ (- e))) 0)
  end.

(** The parts of [NUMBER_RE], each matched at the head of [s] and giving
    back what it leaves unread: an optional minus sign; a single 0 or a
    run of digits that does not start with 0; an optional fraction, a dot
    and at least one digit; an optional exponent, e or E, an optional sign
    and at least one digit.  An optional part that does not match in full
    reads nothing. *)
Definition number_sign (s : string) : bool * string :=
  match s with
  | String c r => if Ascii.eqb c "-" then (true, r) else (false, s)
  | EmptyString => (false, s)
  end.

Definition number_int (s : string) : option (string * string) :=
  match s with
  | String c r =>
      if negb (is_digit c) then None
      else if Ascii.eqb c "0" then Some ("0", r)
      else Some (take_digits s)
  | EmptyString => None
  end.

Definition number_frac (s : string) : string * string :=
  match s with
  | String c r =>
      if Ascii.eqb c "." then
        let '(fd, rest) := take_digits r in
        if String.eqb fd "" then ("", s) else (fd, rest)
      else ("", s)
  | EmptyString => ("", s)
  end.

Definition exponent_sign (s : string) : bool * string :=
  match s with
  | String g r =>
      if Ascii.eqb g "-" then (true, r)
      else if Ascii.eqb g "+" then (false, r)
      else (false, s)
  | EmptyString => (false, s)
  end.

Definition number_exp (s : string) : option Z * string :=
  match s with
  | String c r =>
      if Ascii.eqb c "e" || Ascii.eqb c "E" then
        let '(eneg, r1) := exponent_sign r in
        let '(ed, rest) := take_digits r1 in
        if String.eqb ed "" then (None, s)
        else
          let v := Z.of_N (digits_value 0 ed) in
          (Some (if eneg then - v else v)%Z, rest)
      else (None, s)
  | EmptyString => (None, s)
  end.

(** [sys.get_int_max_str_digits()] as the interpreter starts: the most
    decimal digits [int] converts. *)
Definition int_max_str_digits : nat := 4300.

(** The value of a matched number: [int(integer)] when there is neither
    fraction nor exponent, which raises [ValueError] on more digits than
    [int] converts; [float(integer + frac + exp)] otherwise. *)
Definition number_value (neg : bool) (ip frac : string) (exp : option Z) : result pyval :=
  match frac, exp with
  | EmptyString, None =>
      if (int_max_str_digits <? String.length ip)%nat
      then Raise (IntDigitsError (String.length ip))
      else
        let v := Z.of_N (digits_value 0 ip) in
        Ok (PyInt (if neg then - v else v)%Z)
  | _, _ =>
      let m := digits_value 0 (ip +:+ frac) in
      let e := ((match exp with Some x => x | None => 0 end)
                - Z.of_nat (String.length frac))%Z in
      Ok (PyFloat (float_of_decimal neg m e))
  end.

(** [match_number], the match of [NUMBER_RE] at the head of [s], with the
    outcome of converting what matched. *)
Definition match_number (s : string) : option (result pyval * string) :=
  let '(neg, s1) := number_sign s in
  match number_int s1 with
  | None => None
  | Some (ip, s2) =>
      let '(frac, s3) := number_frac s2 in
      let '(exp, s4) := number_exp s3 in
      Some (number_value neg ip frac exp, s4)
  end.

(** [s[idx:idx+len(p)] == p]: the rest of [s] after the prefix [p]. *)
Fixpoint strip_prefix (p s : string) : option string :=
  match p, s with
  | EmptyString, _ => Some s
  | String a p', String b s' => if Ascii.eqb a b then strip_prefix p' s' else None
  | String _ _, EmptyString => None
  end.

(** [scan_once], [JSONObject] and [JSONArray].  [fuel] makes the recursion
    structural; [decode] gives enough of it for any text. *)
Fixpoint scan_once (fuel : nat) (s : string) : result (pyval * string) :=
  match fuel with
  | O => Raise RecursionError
  | S fuel =>
      match s with
      | EmptyString => Raise JSONDecodeError
      | String c r =>
          if Ascii.eqb c dquote then
            match py_scanstring r with
            | Some (str, rest) => Ok (PyStr str, rest)
            | None => Raise JSONDecodeError
            end
          else if Ascii.eqb c "{" then JSONObject fuel r
          else if Ascii.eqb c "[" then JSONArray fuel r
          else
            match strip_prefix "null" s, strip_prefix "true" s, strip_prefix "false" s with
            | Some rest, _, _ => Ok (PyNone, rest)
            | _, Some rest, _ => Ok (PyBool true, rest)
            | _, _, Some rest => Ok (PyBool false, rest)
            | None, None, None =>
                match match_number s with
                | Some (Ok v, rest) => Ok (v, rest)
                | Some (Raise e, _) => Raise e
                | None =>
                    match strip_prefix "NaN" s, strip_prefix "Infinity" s,
                          strip_prefix "-Infinity" s with
                    | Some rest, _, _ => Ok (PyFloat S754_nan, rest)
                    | _, Some rest, _ => Ok (PyFloat (S754_infinity false), rest)
                    | _, _, Some rest => Ok (PyFloat (S754_infinity true), rest)
                    | None, None, None => Raise JSONDecodeError
                    end
                end
            end
      end
  end

with JSONObject (fuel : nat) (s : string) : result (pyval * string) :=
  match fuel with
  | O => Raise RecursionError
  | S fuel =>
      match skip_ws s with
      | String c r =>
          if Ascii.eqb c "}" then Ok (PyDict ∅, r)
          else if Ascii.eqb c dquote then object_pairs fuel r ∅
          else Raise JSONDecodeError
      | EmptyString => Raise JSONDecodeError
      end
  end

(** The loop of [JSONObject], from just after the opening quote of a key;
    [dict(pairs)] keeps the last value of a repeated key. *)
with object_pairs (fuel : nat) (s : string) (acc : gmap string pyval)
    : result (pyval * string) :=
  match fuel with
  | O => Raise RecursionError
  | S fuel =>
      match py_scanstring s with
      | None => Raise JSONDecodeError
      | Some (key, s1) =>
          match skip_ws s1 with
          | String colon s2 =>
              if negb (Ascii.eqb colon ":") then Raise JSONDecodeError else
              match scan_once fuel (skip_ws s2) with
              | Raise e => Raise e
              | Ok (v, s3) =>
                  let acc := <[key := v]> acc in
                  match skip_ws s3 with
                  | String c r =>
                      if Ascii.eqb c "}" then Ok (PyDict acc, r)
                      else if Ascii.eqb c "," then
                        match skip_ws r with
                        | String q r' =>
                            if Ascii.eqb q dquote then object_pairs fuel r' acc
                            else Raise JSONDecodeError
                        | EmptyString => Raise JSONDecodeError
                        end
                      else Raise JSONDecodeError
                  | EmptyString => Raise JSONDecodeError
                  end
              end
          | EmptyString => Raise JSONDecodeError
          end
      end
  end

with JSONArray (fuel : nat) (s : string) : result (pyval * string) :=
  match fuel with
  | O => Raise RecursionError
  | S fuel =>
      match skip_ws s with
      | String c r =>
          if Ascii.eqb c "]" then Ok (PyList [], r)
          else array_items fuel (String c r) []
      | EmptyString => Raise JSONDecodeError
      end
  end

(** The loop of [JSONArray], at the first character of an item. *)
with array_items (fuel : nat) (s : string) (acc : list pyval)
    : result (pyval * string) :=
  match fuel with
  | O => Raise RecursionError
  | S fuel =>
      match scan_once fuel s with
      | Raise e => Raise e
      | Ok (v, s1) =>
          let acc := (acc ++ [v])%list in
          match skip_ws s1 with
          | String c r =>
              if Ascii.eqb c "]" then Ok (PyList acc, r)
              else if Ascii.eqb c "," then array_items fuel (skip_ws r) acc
              else Raise JSONDecodeError
          | EmptyString => Raise JSONDecodeError
          end
      end
  end.

(** [JSONDecoder.decode]: one value with white space around it and nothing
    after.  No call chain is longer than three calls per character, so
    the fuel given here never runs out ([JsonFacts.loads_fuel_suffices]). *)
Definition decode (s : string) : result pyval :=
  match scan_once (3 * String.length s + 3) (skip_ws s) with
  | Raise e => Raise e
  | Ok (v, rest) =>
      match skip_ws rest with
      | EmptyString => Ok v
      | String _ _ => Raise JSONDecodeError
      end
  end.

(** [json.loads(s)] for a [str] argument. *)
Definition loads (s : string) : result pyval := decode s.

(** ** Writing a record of strings *)

Definition hex_digit (n : N) : ascii :=
  if (n <? 10)%N then chr (48 + n) else chr (87 + n).

(** The escapes of [json.encoder] ([ESCAPE_DCT]): the quote, the backslash
    and the control characters are escaped, every other character is
    written as it is. *)
Definition escape_char (c : ascii) : string :=
  let n := code c in
  if Ascii.eqb c dquote then String backslash (String dquote "")
  else if Ascii.eqb c backslash then String backslash (String backslash "")
  else if (n =? 8)%N then "\b"
  else if (n =? 12)%N then "\f"
  else if (n =? 10)%N then "\n"
  else if (n =? 13)%N then "\r"
  else if (n =? 9)%N then "\t"
  else if (n <? 32)%N then
    "\u00" +:+ String (hex_digit (n / 16)) (String (hex_digit (n mod 16)) "")
  else String c "".

Fixpoint escape (s : string) : string :=
  match s with
  | EmptyString => ""
  | String c r => escape_char c +:+ escape r
  end.

(** A [str] between quotes, escaped. *)
Definition dumps_str (s : string) : string :=
  String dquote (escape s +:+ String dquote "").

(** The fields of a record, in insertion order, with the separators
    [json.dumps] uses. *)
Fixpoint dumps_items (fields : list (string * string)) : string :=
  match fields with
  | [] => ""
  | (k, v) :: rest =>
      dumps_str k +:+ ": " +:+ dumps_str v +:+
      match rest with
      | [] => ""
      | _ :: _ => ", " +:+ dumps_items rest
      end
  end.

(** Modelled from the spec: the serializer of a purchase record, which is
    not part of [iap.py] (the native side of the bridge writes the
    payloads); the specification says only that a record travels as a
    string-encoded structured record.  The text is the one
    [json.dumps(record, ensure_ascii=False)] writes for a [dict] of [str]
    to [str], which for ASCII text is the one [json.dumps(record)]
    writes. *)
Definition dumps_record (fields : list (string * string)) : string :=
  "{" +:+ dumps_items fields +:+ "}".

(** What follows a written field: nothing after the last one, a separator
    and the remaining fields otherwise. *)
Definition items_tail (fields : list (string * string)) : string :=
  match fields with
  | [] => ""
  | _ :: _ => ", " +:+ dumps_items fields
  end.

(** The [dict] a list of fields stands for. *)
Definition insert_field (acc : gmap string pyval) (kv : string * string) : gmap string pyval :=
  <[fst kv := PyStr (snd kv)]> acc.

Definition record_dict (fields : list (string * string)) : gmap string pyval :=
  fold_left insert_field fields ∅.

End Json.

(* ===================================================================== *)
(** * The framework side: pages, attributes, events *)
(* ===================================================================== *)

(** [flet.core.types.PagePlatform], the platforms a page can report. *)
Inductive PagePlatform := IOS | ANDROID | ANDROID_TV | MACOS | WINDOWS | LINUX.

Definition PagePlatform_eqb (a b : PagePlatform) : bool :=
  match a, b with
  | IOS, IOS | ANDROID, ANDROID | ANDROID_TV, ANDROID_TV
  | MACOS, MACOS | WINDOWS, WINDOWS | LINUX, LINUX => true
  | _, _ => false
  end.

(** A page; [platform] is the platform the client has reported, [None]
    when it has reported none. *)
Record Page := { platform : option PagePlatform }.

(** Reading [page.platform]: the property looks the reported platform up
    in [PagePlatform], and the lookup of [None] raises its [ValueError]. *)
Definition Page_platform (p : Page) : result PagePlatform :=
  match platform p with
  | Some x => Ok x
  | None => Raise (EnumValueError "PagePlatform" PyNone)
  end.

(** [x in xs] for a platform and a list of platforms. *)
Definition platform_in (x : PagePlatform) (xs : list PagePlatform) : bool :=
  existsb (PagePlatform_eqb x) xs.

(** The control as [iap.py] sees it: the page it has been added to, if
    any, and the attribute store of [Control] that the [product_ids]
    property reads and writes.  The three event callbacks play no part in
    the commands and are left out. *)
Record InAppPurchase := {
  page : option Page;
  attrs : gmap string pyval
}.

(** [Control._get_attr(name, def_value=...)]: the stored value, or
    [def_value] when the attribute was never set. *)
Definition _get_attr (self : InAppPurchase) (name : string) (def_value : pyval) : pyval :=
  match attrs self !! name with
  | Some value => value
  | None => def_value
  end.

Definition store_attr (self : InAppPurchase) (name : string) (value : pyval) : InAppPurchase :=
  {| page := page self; attrs := <[name := value]> (attrs self) |}.

(** [Control._set_attr(name, value)]: setting [None] leaves an unset
    attribute unset and blanks a set one; a set attribute keeps the value
    it has when the new one equals it ([==]), and takes the new one
    otherwise. *)
Definition _set_attr (self : InAppPurchase) (name : string) (value : pyval) : InAppPurchase :=
  match attrs self !! name with
  | None =>
      match value with
      | PyNone => self
      | _ => store_attr self name value
      end
  | Some orig_val =>
      let value := match value with PyNone => PyStr "" | _ => value end in
      if py_eq orig_val value then self else store_attr self name value
  end.

(** The [product_ids] property. *)
Definition product_ids (self : InAppPurchase) : pyval :=
  _get_attr self "productIds" (PyList []).

Definition set_product_ids (self : InAppPurchase) (value : pyval) : InAppPurchase :=
  _set_attr self "productIds" value.

(** [InAppPurchase(product_ids=...)]: a fresh control, on no page, with
    [self.product_ids = product_ids]. *)
Definition InAppPurchase_init (product_ids : pyval) : InAppPurchase :=
  set_product_ids {| page := None; attrs := ∅ |} product_ids.

(** What [page.add(control)] does to the control. *)
Definition attach (p : Page) (self : InAppPurchase) : InAppPurchase :=
  {| page := Some p; attrs := attrs self |}.

(** [flet.core.control_event.ControlEvent]: the event the framework hands
    to a handler; [data] is the payload text. *)
Module ControlEvent.
Record t := mk {
  target : string;
  name : string;
  data : string;
  control : InAppPurchase;
  page : Page
}.
End ControlEvent.

(* ===================================================================== *)
(** * [ProductDetails] and [PurchaseEvent] *)
(* ===================================================================== *)

Module ProductDetails.

Record t := mk {
  id : pyval;
  title : pyval;
  description : pyval;
  price : pyval;
  raw_price : pyval;
  currency_code : pyval;
  currency_symbol : pyval;
  type : ProductType
}.

(** [ProductDetails.__init__(self, data)]: seven [data.get] with a default
    each, then the [ProductType] lookup, which may raise. *)
Definition __init__ (data : gmap string pyval) : result t :=
  let id := dict_get data "id" (PyStr "") in
  let title := dict_get data "title" (PyStr "") in
  let description := dict_get data "description" (PyStr "") in
  let price := dict_get data "price" (PyStr "") in
  let raw_price := dict_get data "rawPrice" (PyFloat (S754_zero false)) in
  let currency_code := dict_get data "currencyCode" (PyStr "") in
  let currency_symbol := dict_get data "currencySymbol" (PyStr "") in
  type <- ProductType_call (dict_get data "type" (PyStr "consumable")) ;;
  Ok (mk id title description price raw_price currency_code currency_symbol type).

End ProductDetails.

Module PurchaseEvent.

(** A [PurchaseEvent] is a [ControlEvent] ([event], as
    [super().__init__] fills it) with four more fields. *)
Record t := mk {
  event : ControlEvent.t;
  product_id : pyval;
  status : PurchaseStatus;
  transaction_id : pyval;
  error_message : pyval
}.

(** [d.get(key, default)] where [d] is whatever [json.loads] returned:
    only a [dict] has the method. *)
Definition get (d : pyval) (key : string) (dflt : pyval) : result pyval :=
  match d with
  | PyDict m => Ok (dict_get m key dflt)
  | _ => Raise (AttributeError "get")
  end.

(** [PurchaseEvent.__init__(self, e)]. *)
Definition __init__ (e : ControlEvent.t) : result t :=
  let base :=
    ControlEvent.mk (ControlEvent.target e) (ControlEvent.name e)
      (ControlEvent.data e) (ControlEvent.control e) (ControlEvent.page e) in
  d <- Json.loads (ControlEvent.data e) ;;
  product_id <- get d "productId" (PyStr "") ;;
  status_value <- get d "status" (PyStr "error") ;;
  status <- PurchaseStatus_call status_value ;;
  transaction_id <- get d "transactionId" (PyStr "") ;;
  error_message <- get d "errorMessage" PyNone ;;
  Ok (mk base product_id status transaction_id error_message).

End PurchaseEvent.

(* ===================================================================== *)
(** * The commands of [InAppPurchase] *)
(* ===================================================================== *)

(** One call of [Control.invoke_method], with the keyword arguments
    [iap.py] passes; [wait_timeout] is [None] where the call leaves it to
    the framework. *)
Record Request := {
  method_name : string;
  arguments : option (gmap string pyval);
  wait_for_result : bool;
  wait_timeout : option pyval
}.

(** A command runs against the requests issued so far and leaves the
    requests issued after it, whether it returns or raises. *)
Definition M (A : Type) : Type := list Request -> result A * list Request.

Definition ret {A} (a : A) : M A := fun sent => (Ok a, sent).

Definition raise {A} (e : exn) : M A := fun sent => (Raise e, sent).

Definition mbind {A B} (m : M A) (k : A -> M B) : M B :=
  fun sent =>
    match m sent with
    | (Ok a, sent') => k a sent'
    | (Raise e, sent') => (Raise e, sent')
    end.

Definition lift {A} (r : result A) : M A := fun sent => (r, sent).

Notation "x <~ m ;; k" := (mbind m (fun x => k))
  (at level 100, m at next level, right associativity).
Notation "m ;;; k" := (mbind m (fun _ => k))
  (at level 100, right associativity).

Definition not_attached_msg : string := "InAppPurchase must be added to page first.".
Definition unsupported_msg : string :=
  "InAppPurchase is supported on Android and iOS platforms only.".

(** [_check_mobile_platform]: the assertion, then the platform, read off
    the page, tested. *)
Definition _check_mobile_platform (self : InAppPurchase) : M unit :=
  match page self with
  | None => raise (AssertionError not_attached_msg)
  | Some p =>
      x <~ lift (Page_platform p) ;;
      if negb (platform_in x [ANDROID; IOS])
      then raise (Exception unsupported_msg)
      else ret tt
  end.

Section Commands.

(** The bridge behind [invoke_method]: what the call gives back for a
    request, an optional text, unless it raises.  A call that waits for a
    result gives back the text the native side answers with, [None] when
    it answers with none, and raises [TimeoutError] when no answer arrives
    within [wait_timeout]. *)
Variable bridge : Request -> result (option string).

(** [self.invoke_method(...)]: the request goes out, then the bridge
    answers. *)
Definition invoke_method (req : Request) : M (option string) :=
  fun sent => (bridge req, (sent ++ [req])%list).

Definition initialize_request : Request :=
  {| method_name := "initialize"; arguments := None;
     wait_for_result := false; wait_timeout := None |}.

Definition initialize (self : InAppPurchase) : M unit :=
  _check_mobile_platform self ;;;
  _ <~ invoke_method initialize_request ;;
  ret tt.

Definition query_products_request (ids : pyval) : Request :=
  {| method_name := "query_products";
     arguments := Some {[ "productIds" := ids ]};
     wait_for_result := false; wait_timeout := None |}.

Definition no_ids_msg : string := "No product IDs provided".

(** [query_products(self, product_ids=None)]. *)
Definition query_products (self : InAppPurchase) (product_ids_arg : pyval) : M unit :=
  _check_mobile_platform self ;;;
  let ids := py_or product_ids_arg (product_ids self) in
  if negb (truthy ids) then raise (ValueError no_ids_msg)
  else
    _ <~ invoke_method (query_products_request ids) ;;
    ret tt.

Definition buy_product_request (product_id : pyval) : Request :=
  {| method_name := "buy_product";
     arguments := Some {[ "productId" := product_id ]};
     wait_for_result := false; wait_timeout := None |}.

Definition buy_product (self : InAppPurchase) (product_id : pyval) : M unit :=
  _check_mobile_platform self ;;;
  _ <~ invoke_method (buy_product_request product_id) ;;
  ret tt.

Definition restore_purchases_request : Request :=
  {| method_name := "restore_purchases"; arguments := None;
     wait_for_result := false; wait_timeout := None |}.

Definition restore_purchases (self : InAppPurchase) : M unit :=
  _check_mobile_platform self ;;;
  _ <~ invoke_method restore_purchases_request ;;
  ret tt.

Definition get_past_purchases_request (wait_timeout : pyval) : Request :=
  {| method_name := "get_past_purchases"; arguments := None;
     wait_for_result := true; wait_timeout := Some wait_timeout |}.

(** The default of the [wait_timeout] parameter. *)
Definition default_wait_timeout : pyval := PyInt 10.

(** [json.loads(result) if result else []] *)
Definition past_purchases_of (result : option string) : Py.result pyval :=
  match result with
  | Some s => if negb (String.eqb s "") then Json.loads s else Ok (PyList [])
  | None => Ok (PyList [])
  end.

(** [get_past_purchases(self, wait_timeout=10)]; the argument is [None]
    when the caller leaves it out. *)
Definition get_past_purchases (self : InAppPurchase) (wait_timeout_arg : option pyval)
    : M pyval :=
  let wait_timeout :=
    match wait_timeout_arg with
    | Some t => t
    | None => default_wait_timeout
    end in
  _check_mobile_platform self ;;;
  result <~ invoke_method (get_past_purchases_request wait_timeout) ;;
  lift (past_purchases_of result).

Definition finish_transaction_request (transaction_id : pyval) : Request :=
  {| method_name := "finish_transaction";
     arguments := Some {[ "transactionId" := transaction_id ]};
     wait_for_result := false; wait_timeout := None |}.

Definition finish_transaction (self : InAppPurchase) (transaction_id : pyval) : M unit :=
  _check_mobile_platform self ;;;
  _ <~ invoke_method (finish_transaction_request transaction_id) ;;
  ret tt.

End Commands.

(* ===================================================================== *)
(** * The conditions the properties speak of *)
(* ===================================================================== *)

(** The status entry of a parsed record is one the lookup accepts: the key
    is absent, or it holds the value of a member. *)
Definition status_acceptable (d : gmap string pyval) : Prop :=
  d !! "status" = None \/
  exists m, d !! "status" = Some (PyStr (PurchaseStatus_value m)).

(** The control is on a page whose platform is Android or iOS. *)
Definition attached_to_mobile (self : InAppPurchase) : Prop :=
  exists p, page self = Some p /\
            (platform p = Some ANDROID \/ platform p = Some IOS).

(** The control is on no page, or on a page whose platform is neither
    Android nor iOS. *)
Definition guard_rejects (self : InAppPurchase) : Prop :=
  page self = None \/
  exists p, page self = Some p /\
            platform p <> Some ANDROID /\ platform p <> Some IOS.

(** What the guard raises when it rejects: the failed assertion off a page,
    the [ValueError] of reading the platform of a page that has none, the
    platform error on a page of another platform. *)
Definition guard_error (self : InAppPurchase) : exn :=
  match page self with
  | None => AssertionError not_attached_msg
  | Some p =>
      match platform p with
      | None => EnumValueError "PagePlatform" PyNone
      | Some _ => Exception unsupported_msg
      end
  end.

(* ===================================================================== *)
(** * Concrete payloads, records and controls *)
(* ===================================================================== *)

Module Examples.

Import Json.

Definition android_page : Page := {| platform := Some ANDROID |}.
Definition ios_page : Page := {| platform := Some IOS |}.
Definition linux_page : Page := {| platform := Some LINUX |}.

(** [InAppPurchase()], not yet on a page. *)
Definition fresh_control : InAppPurchase := InAppPurchase_init PyNone.

(** [InAppPurchase(product_ids=[a, b])] added to an Android page. *)
Definition ab_ids : pyval := PyList [PyStr "a"; PyStr "b"].
Definition ab_control : InAppPurchase := attach android_page (InAppPurchase_init ab_ids).

(** [InAppPurchase()] added to an Android page, to an iOS page and to a
    desktop page. *)
Definition android_control : InAppPurchase := attach android_page fresh_control.
Definition ios_control : InAppPurchase := attach ios_page fresh_control.
Definition linux_control : InAppPurchase := attach linux_page fresh_control.

(** The [purchase_updated] event that carries [payload]. *)
Definition purchase_updated (payload : string) : ControlEvent.t :=
  ControlEvent.mk "_1" "purchase_updated" payload android_control android_page.

Definition bogus_status_event : ControlEvent.t :=
  purchase_updated (dumps_record [("productId", "coins"); ("status", "bogus")]).

Definition refunded_event : ControlEvent.t :=
  purchase_updated (dumps_record [("status", "refunded"); ("transactionId", "t1")]).

Definition only_product_event : ControlEvent.t :=
  purchase_updated (dumps_record [("productId", "coins")]).

(** The purchased-coins record as a serializer that puts no space after
    a separator writes it. *)
Definition purchased_coins_compact_text : string :=
  "{" +:+ dumps_str "status" +:+ ":" +:+ dumps_str "purchased" +:+ ","
      +:+ dumps_str "productId" +:+ ":" +:+ dumps_str "coins" +:+ ","
      +:+ dumps_str "transactionId" +:+ ":" +:+ dumps_str "t1" +:+ "}".

Definition bundle_record : gmap string pyval :=
  {[ "id" := PyStr "p1"; "type" := PyStr "bundle" ]}.

Definition bare_record : gmap string pyval :=
  {[ "id" := PyStr "p2"; "title" := PyStr "Gems" ]}.

(** Bridges: one on which every call gives back [None] (a call that does
    not wait, or a waiting call the native side answers with no text), one
    that answers every request with the same text. *)
Definition silent_bridge : Request -> result (option string) := fun _ => Ok None.
Definition constant_bridge (text : string) : Request -> result (option string) :=
  fun _ => Ok (Some text).

End Examples.

(* ===================================================================== *)
(** * Further conditions and inputs *)
(* ===================================================================== *)

(** The four fields a decoding adds to the event, or what it raised. *)
Definition decoded_fields (r : result PurchaseEvent.t)
    : result (pyval * PurchaseStatus * pyval * pyval) :=
  ev <- r ;;
  Ok (PurchaseEvent.product_id ev, PurchaseEvent.status ev,
      PurchaseEvent.transaction_id ev, PurchaseEvent.error_message ev).

(** The keys [PurchaseEvent.__init__] reads, and those
    [ProductDetails.__init__] reads. *)
Definition purchase_keys : list string :=
  ["productId"; "status"; "transactionId"; "errorMessage"].

Definition product_keys : list string :=
  ["id"; "title"; "description"; "price"; "rawPrice"; "currencyCode";
   "currencySymbol"; "type"].

(** A fire-and-forget command gives back [None] whatever the bridge
    returned, and raises what the bridge raised. *)
Definition discard (r : result (option string)) : result unit :=
  _ <- r ;; Ok tt.

(** A text of white space only. *)
Fixpoint blank (s : string) : bool :=
  match s with
  | EmptyString => true
  | String c r => Json.is_ws c && blank r
  end.

Module MoreExamples.
Import Json.

Definition null_status_event : ControlEvent.t :=
  Examples.purchase_updated ("{" +:+ dumps_str "status" +:+ ": null}").

Definition list_payload_event : ControlEvent.t :=
  Examples.purchase_updated ("[" +:+ dumps_str "coins" +:+ "]").

Definition canceled_record : list (string * string) :=
  [("productId", "coins"); ("status", "canceled"); ("transactionId", "t7");
   ("errorMessage", "user canceled")].

Definition coins_event : ControlEvent.t :=
  Examples.purchase_updated (dumps_record [("productId", "coins")]).

Definition coins_error_event : ControlEvent.t :=
  Examples.purchase_updated (dumps_record [("productId", "coins"); ("status", "error")]).

Definition coins_extra_event : ControlEvent.t :=
  Examples.purchase_updated (dumps_record [("productId", "coins"); ("price", "0.99")]).

Definition gems_record : gmap string pyval :=
  {[ "id" := PyStr "gems"; "price" := PyStr "0.99" ]}.

Definition c_ids : pyval := PyList [PyStr "c"].

Definition failing_bridge : Request -> result (option string) :=
  fun _ => Raise (BridgeError "store unavailable").

(** A bridge whose native side never answers: a call that does not wait
    gives back [None], a call that waits raises the [TimeoutError] of
    [invoke_method] when its wait ends.  The only waiting call of
    [iap.py] is [get_past_purchases], which passes no arguments. *)
Definition past_purchases_timeout_msg : string :=
  "Timeout waiting for invokeMethod get_past_purchases(None) call".

Definition timing_out_bridge : Request -> result (option string) :=
  fun req =>
    if wait_for_result req
    then Raise (TimeoutError ("Timeout waiting for invokeMethod "
                              +:+ method_name req +:+ "(None) call"))
    else Ok None.

Definition tv_page : Page := {| platform := Some ANDROID_TV |}.
Definition tv_control : InAppPurchase := attach tv_page Examples.fresh_control.

(** A control on a page that has reported no platform. *)
Definition unreported_page : Page := {| platform := None |}.
Definition unreported_control : InAppPurchase := attach unreported_page Examples.fresh_control.

End MoreExamples.

(* ===================================================================== *)
(** * The decoder reads forward and never runs out of fuel *)
(* ===================================================================== *)

Module JsonFacts.

Import Json.

(** Skipping white space never lengthens the text. *)
Lemma skip_ws_length s : String.length (skip_ws s) <= String.length s.
Proof.
  induction s as [|c r IH]; cbn; [lia|].
  destruct (is_ws c); cbn; lia.
Qed.

Lemma prepend_some pre r str rest :
  prepend pre r = Some (str, rest) -> exists str', r = Some (str', rest).
Proof. destruct r as [[a b]|]; cbn; [|discriminate]. intros [= _ <-]. eauto. Qed.

(** A scanned string leaves less text than it was given: at least the
    closing quote has been read. *)
Lemma py_scanstring_length_aux n :
  forall s str rest, String.length s <= n -> py_scanstring s = Some (str, rest) -> String.length rest < String.length s.
Proof.
  induction n as [|n IH]; intros s str rest Hn Hs.
  - destruct s; [discriminate Hs | cbn in Hn; lia].
  - destruct s as [|c r]; [discriminate Hs|]. cbn [py_scanstring] in Hs. cbn [String.length] in *.
    assert (forall t a, prepend a (py_scanstring t) = Some (str, rest) ->
                        String.length t <= n -> String.length rest < String.length t) as Hpre.
    { intros t a Hp Ht. apply prepend_some in Hp as [str' Hp]. eapply IH; eauto. }
    destruct (Ascii.eqb c dquote). { injection Hs as _ <-. lia. }
    destruct (Ascii.eqb c backslash).
    + destruct r as [|e r1]; [discriminate|].
      cbn [String.length] in *.
      destruct (Ascii.eqb e "u").
      * destruct r1 as [|h1 [|h2 [|h3 [|h4 r2]]]]; try discriminate.
        cbn [String.length] in *.
        destruct (hex4 h1 h2 h3 h4) as [uni|]; [|discriminate].
        destruct r2 as [|b1 [|u1 [|l1 [|l2 [|l3 [|l4 r3]]]]]];
          try (apply Hpre in Hs; cbn [String.length] in *; lia).
        destruct (is_high_surrogate uni && Ascii.eqb b1 backslash && Ascii.eqb u1 "u").
        -- destruct (hex4 l1 l2 l3 l4) as [uni2|]; [|discriminate].
           destruct (is_low_surrogate uni2);
             apply Hpre in Hs; cbn [String.length] in *; lia.
        -- apply Hpre in Hs; cbn [String.length] in *; lia.
      * destruct (simple_escape e); [|discriminate].
        apply Hpre in Hs; lia.
    + destruct (code c <? 32)%N; [discriminate|].
      apply Hpre in Hs; lia.
Qed.

Lemma py_scanstring_length s str rest :
  py_scanstring s = Some (str, rest) -> String.length rest < String.length s.
Proof. apply (py_scanstring_length_aux (String.length s)). lia. Qed.

(** Each part of a number leaves no more text than it was given. *)
Lemma take_digits_length s ds rest :
  take_digits s = (ds, rest) -> String.length rest <= String.length s.
Proof.
  revert ds rest. induction s as [|c r IH]; cbn; intros ds rest.
  - intros [= _ <-]. cbn. lia.
  - destruct (is_digit c).
    + destruct (take_digits r) as [ds' rest'] eqn:Ht. intros [= _ <-].
      specialize (IH _ _ eq_refl). lia.
    + intros [= _ <-]. cbn. lia.
Qed.

Lemma number_sign_length s neg rest :
  number_sign s = (neg, rest) -> String.length rest <= String.length s.
Proof.
  destruct s as [|c r]; cbn.
  - intros [= _ <-]. cbn. lia.
  - destruct (Ascii.eqb c "-"); intros [= _ <-]; cbn; lia.
Qed.

Lemma number_int_length s ip rest :
  number_int s = Some (ip, rest) -> String.length rest <= String.length s.
Proof.
  destruct s as [|c r]; cbn [number_int]; [discriminate|].
  destruct (negb (is_digit c)); [discriminate|].
  destruct (Ascii.eqb c "0").
  - intros [= _ <-]. cbn. lia.
  - destruct (take_digits (String c r)) as [ds rest'] eqn:Ht.
    intros [= _ <-]. now apply take_digits_length in Ht.
Qed.

Lemma number_frac_length s frac rest :
  number_frac s = (frac, rest) -> String.length rest <= String.length s.
Proof.
  destruct s as [|c r]; cbn [number_frac].
  - intros [= _ <-]. lia.
  - destruct (Ascii.eqb c ".").
    + destruct (take_digits r) as [fd rest'] eqn:Ht.
      apply take_digits_length in Ht.
      destruct (String.eqb fd ""); intros [= _ <-]; cbn; lia.
    + intros [= _ <-]. lia.
Qed.

Lemma exponent_sign_length s eneg rest :
  exponent_sign s = (eneg, rest) -> String.length rest <= String.length s.
Proof.
  destruct s as [|g r]; cbn [exponent_sign].
  - intros [= _ <-]. lia.
  - destruct (Ascii.eqb g "-"); [intros [= _ <-]; cbn; lia|].
    destruct (Ascii.eqb g "+"); intros [= _ <-]; cbn; lia.
Qed.

Lemma number_exp_length s exp rest :
  number_exp s = (exp, rest) -> String.length rest <= String.length s.
Proof.
  destruct s as [|c r]; cbn [number_exp].
  - intros [= _ <-]. lia.
  - destruct (Ascii.eqb c "e" || Ascii.eqb c "E"); [|intros [= _ <-]; lia].
    destruct (exponent_sign r) as [eneg r1] eqn:Hs. apply exponent_sign_length in Hs.
    destruct (take_digits r1) as [ed rest0] eqn:Ht. apply take_digits_length in Ht.
    destruct (String.eqb ed ""); intros [= _ <-]; cbn; lia.
Qed.

Lemma match_number_length s (v : result pyval) rest :
  match_number s = Some (v, rest) -> String.length rest <= String.length s.
Proof.
  unfold match_number.
  destruct (number_sign s) as [neg s1] eqn:H1. apply number_sign_length in H1.
  destruct (number_int s1) as [[ip s2]|] eqn:H2; [|discriminate].
  apply number_int_length in H2.
  destruct (number_frac s2) as [frac s3] eqn:H3. apply number_frac_length in H3.
  destruct (number_exp s3) as [exp s4] eqn:H4. apply number_exp_length in H4.
  intros [= _ <-]. lia.
Qed.

Lemma strip_prefix_length p s rest :
  strip_prefix p s = Some rest -> String.length rest <= String.length s.
Proof.
  revert s. induction p as [|a p IH]; intros s; cbn.
  - intros [= <-]. lia.
  - destruct s as [|b s']; [discriminate|].
    destruct (Ascii.eqb a b); [|discriminate].
    intros H. apply IH in H. cbn. lia.
Qed.

(** A value, an object, an array and their loops leave no more text than
    they were given. *)
Lemma scan_length fuel :
  (forall s v rest, scan_once fuel s = Ok (v, rest) -> String.length rest <= String.length s) /\
  (forall s v rest, JSONObject fuel s = Ok (v, rest) -> String.length rest <= String.length s) /\
  (forall s acc v rest, object_pairs fuel s acc = Ok (v, rest) -> String.length rest <= String.length s) /\
  (forall s v rest, JSONArray fuel s = Ok (v, rest) -> String.length rest <= String.length s) /\
  (forall s acc v rest, array_items fuel s acc = Ok (v, rest) -> String.length rest <= String.length s).
Proof.
  induction fuel as [|fuel (IHs & IHo & IHp & IHa & IHi)].
  - repeat split; intros; discriminate.
  - repeat split.
    + intros s v rest. cbn [scan_once].
      destruct s as [|c r]; [discriminate|].
      destruct (Ascii.eqb c dquote).
      { destruct (py_scanstring r) as [[str rest']|] eqn:Hp; [|discriminate].
        apply py_scanstring_length in Hp. intros [= _ <-]. cbn. lia. }
      destruct (Ascii.eqb c "{"). { intros H. apply IHo in H. cbn. lia. }
      destruct (Ascii.eqb c "["). { intros H. apply IHa in H. cbn. lia. }
      destruct (strip_prefix "null" (String c r)) as [r1|] eqn:H1.
      { apply strip_prefix_length in H1. intros [= _ <-]. exact H1. }
      destruct (strip_prefix "true" (String c r)) as [r2|] eqn:H2.
      { apply strip_prefix_length in H2. intros [= _ <-]. exact H2. }
      destruct (strip_prefix "false" (String c r)) as [r3|] eqn:H3.
      { apply strip_prefix_length in H3. intros [= _ <-]. exact H3. }
      destruct (match_number (String c r)) as [[[v'|e'] r4]|] eqn:H4.
      { apply match_number_length in H4. intros [= _ <-]. exact H4. }
      { discriminate. }
      destruct (strip_prefix "NaN" (String c r)) as [r5|] eqn:H5.
      { apply strip_prefix_length in H5. intros [= _ <-]. exact H5. }
      destruct (strip_prefix "Infinity" (String c r)) as [r6|] eqn:H6.
      { apply strip_prefix_length in H6. intros [= _ <-]. exact H6. }
      destruct (strip_prefix "-Infinity" (String c r)) as [r7|] eqn:H7.
      { apply strip_prefix_length in H7. intros [= _ <-]. exact H7. }
      discriminate.
    + intros s v rest. cbn [JSONObject].
      pose proof (skip_ws_length s) as Hw.
      destruct (skip_ws s) as [|c r]; [discriminate|]. cbn in Hw.
      destruct (Ascii.eqb c "}"). { intros [= _ <-]. lia. }
      destruct (Ascii.eqb c dquote); [|discriminate].
      intros H. apply IHp in H. lia.
    + intros s acc v rest. cbn [object_pairs].
      destruct (py_scanstring s) as [[key s1]|] eqn:Hk; [|discriminate].
      apply py_scanstring_length in Hk.
      pose proof (skip_ws_length s1) as Hw1.
      destruct (skip_ws s1) as [|colon s2]; [discriminate|]. cbn in Hw1.
      destruct (negb (Ascii.eqb colon ":")); [discriminate|].
      pose proof (skip_ws_length s2) as Hw2.
      destruct (scan_once fuel (skip_ws s2)) as [[v' s3]|e] eqn:Hv; [|discriminate].
      apply IHs in Hv.
      pose proof (skip_ws_length s3) as Hw3.
      destruct (skip_ws s3) as [|c r]; [discriminate|]. cbn in Hw3.
      destruct (Ascii.eqb c "}"). { intros [= _ <-]. lia. }
      destruct (Ascii.eqb c ","); [|discriminate].
      pose proof (skip_ws_length r) as Hw4.
      destruct (skip_ws r) as [|q r']; [discriminate|]. cbn in Hw4.
      destruct (Ascii.eqb q dquote); [|discriminate].
      intros H. apply IHp in H. lia.
    + intros s v rest. cbn [JSONArray].
      pose proof (skip_ws_length s) as Hw.
      destruct (skip_ws s) as [|c r]; [discriminate|]. cbn in Hw.
      destruct (Ascii.eqb c "]"). { intros [= _ <-]. lia. }
      intros H. apply IHi in H. cbn in H. lia.
    + intros s acc v rest. cbn [array_items].
      destruct (scan_once fuel s) as [[v' s1]|e] eqn:Hv; [|discriminate].
      apply IHs in Hv.
      pose proof (skip_ws_length s1) as Hw1.
      destruct (skip_ws s1) as [|c r]; [discriminate|]. cbn in Hw1.
      destruct (Ascii.eqb c "]"). { intros [= _ <-]. lia. }
      destruct (Ascii.eqb c ","); [|discriminate].
      pose proof (skip_ws_length r) as Hw2.
      intros H. apply IHi in H. lia.
Qed.

(** With three units of fuel per character, and the few more each
    function needs for its own call, the fuel never runs out. *)
Lemma scan_fuel fuel :
  (forall s, 3 * String.length s + 1 <= fuel -> scan_once fuel s <> Raise RecursionError) /\
  (forall s, 3 * String.length s + 3 <= fuel -> JSONObject fuel s <> Raise RecursionError) /\
  (forall s acc, 3 * String.length s + 2 <= fuel -> object_pairs fuel s acc <> Raise RecursionError) /\
  (forall s, 3 * String.length s + 3 <= fuel -> JSONArray fuel s <> Raise RecursionError) /\
  (forall s acc, 3 * String.length s + 2 <= fuel -> array_items fuel s acc <> Raise RecursionError).
Proof.
  induction fuel as [|fuel (IHs & IHo & IHp & IHa & IHi)].
  - repeat split; intros; lia.
  - repeat split.
    + intros s Hf. cbn [scan_once].
      destruct s as [|c r]; [discriminate|]. cbn [String.length] in Hf.
      destruct (Ascii.eqb c dquote).
      { destruct (py_scanstring r) as [[str rest']|]; discriminate. }
      destruct (Ascii.eqb c "{"). { apply IHo. lia. }
      destruct (Ascii.eqb c "["). { apply IHa. lia. }
      destruct (strip_prefix "null" (String c r)); [discriminate|].
      destruct (strip_prefix "true" (String c r)); [discriminate|].
      destruct (strip_prefix "false" (String c r)); [discriminate|].
      destruct (match_number (String c r)) as [[[v'|e'] r4]|] eqn:H4; [discriminate| |].
      { unfold match_number in H4.
        destruct (number_sign (String c r)) as [neg s1].
        destruct (number_int s1) as [[ip s2]|]; [|discriminate H4].
        destruct (number_frac s2) as [frac s3]. destruct (number_exp s3) as [exp s4].
        injection H4 as H4 _. unfold number_value in H4.
        destruct frac, exp; try discriminate H4.
        destruct (int_max_str_digits <? String.length ip)%nat; [|discriminate H4].
        injection H4 as <-. discriminate. }
      destruct (strip_prefix "NaN" (String c r)); [discriminate|].
      destruct (strip_prefix "Infinity" (String c r)); [discriminate|].
      destruct (strip_prefix "-Infinity" (String c r)); discriminate.
    + intros s Hf. cbn [JSONObject].
      pose proof (skip_ws_length s) as Hw.
      destruct (skip_ws s) as [|c r]; [discriminate|]. cbn in Hw.
      destruct (Ascii.eqb c "}"); [discriminate|].
      destruct (Ascii.eqb c dquote); [|discriminate].
      apply IHp. lia.
    + intros s acc Hf. cbn [object_pairs].
      destruct (py_scanstring s) as [[key s1]|] eqn:Hk; [|discriminate].
      apply py_scanstring_length in Hk.
      pose proof (skip_ws_length s1) as Hw1.
      destruct (skip_ws s1) as [|colon s2]; [discriminate|]. cbn in Hw1.
      destruct (negb (Ascii.eqb colon ":")); [discriminate|].
      pose proof (skip_ws_length s2) as Hw2.
      destruct (scan_once fuel (skip_ws s2)) as [[v' s3]|e] eqn:Hv.
      * apply (proj1 (scan_length fuel)) in Hv.
        pose proof (skip_ws_length s3) as Hw3.
        destruct (skip_ws s3) as [|c r]; [discriminate|]. cbn in Hw3.
        destruct (Ascii.eqb c "}"); [discriminate|].
        destruct (Ascii.eqb c ","); [|discriminate].
        pose proof (skip_ws_length r) as Hw4.
        destruct (skip_ws r) as [|q r']; [discriminate|]. cbn in Hw4.
        destruct (Ascii.eqb q dquote); [|discriminate].
        apply IHp. lia.
      * intros [= ->]. apply (IHs (skip_ws s2)); [lia | exact Hv].
    + intros s Hf. cbn [JSONArray].
      pose proof (skip_ws_length s) as Hw.
      destruct (skip_ws s) as [|c r]; [discriminate|].
      destruct (Ascii.eqb c "]"); [discriminate|].
      apply IHi. lia.
    + intros s acc Hf. cbn [array_items].
      destruct (scan_once fuel s) as [[v' s1]|e] eqn:Hv.
      * apply (proj1 (scan_length fuel)) in Hv.
        pose proof (skip_ws_length s1) as Hw1.
        destruct (skip_ws s1) as [|c r]; [discriminate|]. cbn in Hw1.
        destruct (Ascii.eqb c "]"); [discriminate|].
        destruct (Ascii.eqb c ","); [|discriminate].
        pose proof (skip_ws_length r) as Hw2.
        apply IHi. lia.
      * intros [= ->]. apply (IHs s); [lia | exact Hv].
Qed.

(** The fuel [decode] gives is enough for every text: [loads] never stops
    for lack of it. *)
Lemma loads_fuel_suffices s : loads s <> Raise RecursionError.
Proof.
  unfold loads, decode.
  pose proof (skip_ws_length s) as Hw.
  destruct (scan_once (3 * String.length s + 3) (skip_ws s)) as [[v rest]|e] eqn:Hv.
  - destruct (skip_ws rest); discriminate.
  - intros [= ->]. apply (proj1 (scan_fuel (3 * String.length s + 3)) (skip_ws s)); [lia | exact Hv].
Qed.

(** ** Reading back what was written *)

(** An escaped character reads back as the character. *)
Lemma scan_escape_char c t :
  py_scanstring (escape_char c +:+ t) = prepend (String c "") (py_scanstring t).
Proof.
  destruct c as [[] [] [] [] [] [] [] []]; cbn; try reflexivity;
    destruct t as [|? [|? [|? [|? [|? [|? ?]]]]]]; reflexivity.
Qed.

Lemma append_nil (b : string) : "" +:+ b = b.
Proof. reflexivity. Qed.

Lemma append_cons (x : ascii) (a b : string) : String x a +:+ b = String x (a +:+ b).
Proof. reflexivity. Qed.

Lemma append_assoc (a b c : string) : (a +:+ b) +:+ c = a +:+ (b +:+ c).
Proof.
  induction a as [|x a IH]; [reflexivity|].
  rewrite !append_cons. now f_equal.
Qed.

Lemma append_length (a b : string) :
  String.length (a +:+ b) = String.length a + String.length b.
Proof.
  induction a as [|x a IH]; [reflexivity|].
  rewrite append_cons. cbn [String.length]. now rewrite IH.
Qed.

Ltac norm_text :=
  repeat first [rewrite append_assoc | rewrite append_cons | rewrite append_nil].

(** An escaped text, up to its closing quote, reads back as the text. *)
Lemma scan_escape s rest :
  py_scanstring (escape s +:+ String dquote rest) = Some (s, rest).
Proof.
  induction s as [|c r IH].
  - reflexivity.
  - cbn [escape]. rewrite append_assoc, scan_escape_char, IH. reflexivity.
Qed.

Lemma dumps_str_app s rest :
  dumps_str s +:+ rest = String dquote (escape s +:+ String dquote rest).
Proof. unfold dumps_str. now rewrite append_cons, append_assoc, append_cons, append_nil. Qed.

Lemma scan_once_dumps_str fuel s rest :
  scan_once (S fuel) (dumps_str s +:+ rest) = Ok (PyStr s, rest).
Proof.
  rewrite dumps_str_app. cbn [scan_once].
  change (Ascii.eqb dquote dquote) with true. cbv iota.
  now rewrite scan_escape.
Qed.

Lemma dumps_items_cons k v rest :
  dumps_items ((k, v) :: rest) = dumps_str k +:+ ": " +:+ dumps_str v +:+ items_tail rest.
Proof. reflexivity. Qed.

Lemma skip_ws_dumps_str s rest : skip_ws (dumps_str s +:+ rest) = dumps_str s +:+ rest.
Proof. rewrite dumps_str_app. reflexivity. Qed.

Lemma skip_ws_space_dumps_str s rest :
  skip_ws (" " +:+ dumps_str s +:+ rest) = dumps_str s +:+ rest.
Proof. rewrite append_cons, append_nil. cbn [skip_ws]. change (is_ws " ") with true. cbv iota. apply skip_ws_dumps_str. Qed.

(** One turn of the loop of [JSONObject] on a written field. *)
Lemma object_pairs_field fuel k v rest acc :
  object_pairs (S (S fuel)) (escape k +:+ String dquote (": " +:+ dumps_str v +:+ rest)) acc =
    let acc' := <[k := PyStr v]> acc in
    match skip_ws rest with
    | String c r =>
        if Ascii.eqb c "}" then Ok (PyDict acc', r)
        else if Ascii.eqb c "," then
          match skip_ws r with
          | String q r' =>
              if Ascii.eqb q dquote then object_pairs (S fuel) r' acc'
              else Raise JSONDecodeError
          | EmptyString => Raise JSONDecodeError
          end
        else Raise JSONDecodeError
    | EmptyString => Raise JSONDecodeError
    end.
Proof.
  cbn [object_pairs]. rewrite scan_escape.
  rewrite (append_cons ":" " "). cbn [skip_ws]. change (is_ws ":") with false. cbv iota.
  change (negb (Ascii.eqb ":" ":")) with false. cbv iota.
  rewrite skip_ws_space_dumps_str, scan_once_dumps_str.
  reflexivity.
Qed.

(** The loop of [JSONObject] over the written fields. *)
Lemma object_pairs_items fields :
  forall k v acc tail fuel,
    length fields + 2 <= fuel ->
    object_pairs fuel
      (escape k +:+ String dquote (": " +:+ dumps_str v +:+ items_tail fields +:+ "}" +:+ tail)) acc
    = Ok (PyDict (fold_left insert_field fields (<[k := PyStr v]> acc)), tail).
Proof.
  induction fields as [|[k' v'] fields IH]; intros k v acc tail fuel Hfuel;
    (destruct fuel as [|[|fuel]]; [cbn in Hfuel; lia | cbn in Hfuel; lia |]);
    rewrite object_pairs_field; cbv zeta.
  - reflexivity.
  - unfold items_tail at 1. rewrite dumps_items_cons.
    rewrite ?append_cons, ?append_nil. cbn [skip_ws].
    change (is_ws ",") with false. cbv iota.
    change (Ascii.eqb "," "}") with false. change (Ascii.eqb "," ",") with true. cbv iota.
    cbn [skip_ws]. change (is_ws " ") with true. cbv iota.
    rewrite !append_assoc, skip_ws_dumps_str, dumps_str_app.
    change (Ascii.eqb dquote dquote) with true. cbv iota.
    transitivity (object_pairs (S fuel)
                    (escape k' +:+ String dquote
                       (": " +:+ dumps_str v' +:+ items_tail fields +:+ "}" +:+ tail))
                    (<[k := PyStr v]> acc)).
    + f_equal. now norm_text.
    + apply IH. cbn in Hfuel |- *. lia.
Qed.

Lemma dumps_items_length fields : length fields <= String.length (dumps_items fields).
Proof.
  induction fields as [|[k v] fields IH]; [cbn; lia|].
  rewrite dumps_items_cons, dumps_str_app. cbn [String.length].
  rewrite append_length. cbn [String.length]. rewrite !append_length.
  destruct fields as [|kv fields']; [cbn; lia|].
  unfold items_tail. rewrite ?append_cons, ?append_nil. cbn [String.length].
  cbn [length] in IH |- *. lia.
Qed.

(** A written record reads back as the [dict] of its fields. *)
Lemma loads_dumps_record fields :
  loads (dumps_record fields) = Ok (PyDict (record_dict fields)).
Proof.
  unfold loads, decode, dumps_record, record_dict.
  pose proof (dumps_items_length fields) as Hlen.
  rewrite append_cons, append_nil. cbn [String.length]. rewrite append_length.
  cbn [String.length skip_ws]. change (is_ws "{") with false. cbv iota.
  remember (String.length (dumps_items fields)) as n eqn:En.
  replace (3 * S (n + 1) + 3) with (S (S (3 * n + 7))) by lia.
  cbn [scan_once]. change (Ascii.eqb "{" dquote) with false.
  change (Ascii.eqb "{" "{") with true. cbv iota.
  cbn [JSONObject].
  destruct fields as [|[k v] fields].
  - reflexivity.
  - rewrite dumps_items_cons. norm_text.
    rewrite skip_ws_dumps_str, dumps_str_app.
    change (Ascii.eqb dquote "}") with false.
    change (Ascii.eqb dquote dquote) with true. cbv iota.
    replace (String ":" (String " " (dumps_str v +:+ items_tail fields +:+ "}")))
      with (": " +:+ dumps_str v +:+ items_tail fields +:+ "}" +:+ "") by now norm_text.
    rewrite object_pairs_items by (cbn [length] in Hlen; lia).
    reflexivity.
Qed.

End JsonFacts.

(* ===================================================================== *)
(** * Properties of the enumerations *)
(* ===================================================================== *)

Lemma PurchaseStatus_call_value (m : PurchaseStatus) :
  PurchaseStatus_call (PyStr (PurchaseStatus_value m)) = Ok m.
Proof. destruct m; reflexivity. Qed.

Lemma ProductType_call_value (m : ProductType) :
  ProductType_call (PyStr (ProductType_value m)) = Ok m.
Proof. destruct m; reflexivity. Qed.

(** A lookup that finds a member was given that member's value. *)
Lemma enum_lookup_find {M} cls (value_of : M -> string) members v m :
  enum_lookup cls value_of members v = Ok m ->
  v = PyStr (value_of m) /\ In m members.
Proof.
  unfold enum_lookup. destruct v; try discriminate.
  destruct (find _ members) as [m'|] eqn:Hfind; [|discriminate].
  intros [= ->]. apply find_some in Hfind as [Hin Heq].
  apply String.eqb_eq in Heq. subst. auto.
Qed.

(** A lookup either finds a member or raises the lookup's [ValueError]. *)
Lemma enum_lookup_cases {M} cls (value_of : M -> string) members v :
  (exists m, enum_lookup cls value_of members v = Ok m) \/
  enum_lookup cls value_of members v = Raise (EnumValueError cls v).
Proof.
  unfold enum_lookup. destruct v; auto.
  destruct (find _ members); eauto.
Qed.

Lemma PurchaseStatus_call_unrecognized v :
  (forall m, v <> PyStr (PurchaseStatus_value m)) ->
  PurchaseStatus_call v = Raise (EnumValueError "PurchaseStatus" v).
Proof.
  intros Hno. destruct (enum_lookup_cases "PurchaseStatus" PurchaseStatus_value
                          PurchaseStatus_members v) as [[m Hm]|H]; [|exact H].
  apply enum_lookup_find in Hm as [-> _]. now destruct (Hno m).
Qed.

Lemma ProductType_call_unrecognized v :
  (forall m, v <> PyStr (ProductType_value m)) ->
  ProductType_call v = Raise (EnumValueError "ProductType" v).
Proof.
  intros Hno. destruct (enum_lookup_cases "ProductType" ProductType_value
                          ProductType_members v) as [[m Hm]|H]; [|exact H].
  apply enum_lookup_find in Hm as [-> _]. now destruct (Hno m).
Qed.

(* ===================================================================== *)
(** * Decoding a purchase event *)
(* ===================================================================== *)

(** Once the payload has parsed to a [dict], the constructor is four
    [get] and one lookup. *)
Lemma PurchaseEvent_init_dict e d :
  Json.loads (ControlEvent.data e) = Ok (PyDict d) ->
  PurchaseEvent.__init__ e =
    (status <- PurchaseStatus_call (dict_get d "status" (PyStr "error")) ;;
     Ok (PurchaseEvent.mk e
           (dict_get d "productId" (PyStr "")) status
           (dict_get d "transactionId" (PyStr ""))
           (dict_get d "errorMessage" PyNone))).
Proof.
  intros Hd. unfold PurchaseEvent.__init__. rewrite Hd. cbn [bind PurchaseEvent.get].
  destruct (PurchaseStatus_call _); cbn [bind]; [|reflexivity].
  now destruct e.
Qed.

(** A payload that parses to something other than a [dict] (a list, a
    number, a string, [null]) has no [get]. *)
Lemma PurchaseEvent_init_not_dict e v :
  Json.loads (ControlEvent.data e) = Ok v ->
  (forall d, v <> PyDict d) ->
  PurchaseEvent.__init__ e = Raise (AttributeError "get").
Proof.
  intros Hv Hnd. unfold PurchaseEvent.__init__. rewrite Hv. cbn [bind].
  destruct v; try reflexivity. now destruct (Hnd d).
Qed.

(** A payload that does not parse raises what the parser raised. *)
Lemma PurchaseEvent_init_unparsed e x :
  Json.loads (ControlEvent.data e) = Raise x ->
  PurchaseEvent.__init__ e = Raise x.
Proof. intros Hx. unfold PurchaseEvent.__init__. now rewrite Hx. Qed.

(** C1 (as amended): a payload that parses as a structured record and
    carries a status string that is not the value of one of the five
    [PurchaseStatus] members makes the decoding raise the [ValueError] of
    the enumeration lookup; no [PurchaseEvent] is produced. *)
Theorem unrecognized_status_raises (e : ControlEvent.t) (d : gmap string pyval) (s : string) :
  Json.loads (ControlEvent.data e) = Ok (PyDict d) ->
  d !! "status" = Some (PyStr s) ->
  ~ recognized_status s ->
  PurchaseEvent.__init__ e = Raise (EnumValueError "PurchaseStatus" (PyStr s)).
Proof.
  intros Hd Hs Hnot. rewrite (PurchaseEvent_init_dict e d Hd).
  unfold dict_get. rewrite Hs.
  rewrite PurchaseStatus_call_unrecognized; [reflexivity|].
  intros m [= ->]. apply Hnot. now exists m.
Qed.

Lemma bogus_not_recognized : ~ recognized_status "bogus".
Proof. intros [m Hm]. destruct m; discriminate. Qed.

Lemma unrecognized_status_raises_witness :
  PurchaseEvent.__init__ Examples.bogus_status_event
  = Raise (EnumValueError "PurchaseStatus" (PyStr "bogus")).
Proof.
  apply (unrecognized_status_raises Examples.bogus_status_event
           {[ "productId" := PyStr "coins"; "status" := PyStr "bogus" ]} "bogus").
  - vm_compute. reflexivity.
  - vm_compute. reflexivity.
  - exact bogus_not_recognized.
Defined.

(** C1 as stated fails: the payload with [productId] coins and [status]
    bogus parses as a record whose status string is none of the five
    values, and decoding raises instead of giving status [ERROR]. *)
Lemma unrecognized_status_counterexample :
  exists d,
    Json.loads (ControlEvent.data Examples.bogus_status_event) = Ok (PyDict d) /\
    d !! "status" = Some (PyStr "bogus") /\
    ~ recognized_status "bogus" /\
    ~ (exists ev, PurchaseEvent.__init__ Examples.bogus_status_event = Ok ev /\
                  PurchaseEvent.status ev = ERROR).
Proof.
  exists {[ "productId" := PyStr "coins"; "status" := PyStr "bogus" ]}.
  split; [vm_compute; reflexivity|].
  split; [vm_compute; reflexivity|].
  split; [exact bogus_not_recognized|].
  intros [ev [Hev _]]. vm_compute in Hev. discriminate Hev.
Qed.

(** When the status entry is acceptable the decoding returns, and the
    status is the member named, [ERROR] when the key is absent. *)
Lemma PurchaseEvent_init_acceptable e d :
  Json.loads (ControlEvent.data e) = Ok (PyDict d) ->
  status_acceptable d ->
  exists m,
    PurchaseStatus_call (dict_get d "status" (PyStr "error")) = Ok m /\
    PurchaseEvent.__init__ e =
      Ok (PurchaseEvent.mk e
            (dict_get d "productId" (PyStr "")) m
            (dict_get d "transactionId" (PyStr ""))
            (dict_get d "errorMessage" PyNone)).
Proof.
  intros Hd Hacc. rewrite (PurchaseEvent_init_dict e d Hd).
  assert (exists m, PurchaseStatus_call (dict_get d "status" (PyStr "error")) = Ok m)
    as [m Hm].
  { unfold dict_get. destruct Hacc as [Hnone | [m Hm]].
    - rewrite Hnone. exists ERROR. reflexivity.
    - rewrite Hm. exists m. apply PurchaseStatus_call_value. }
  exists m. split; [exact Hm|]. now rewrite Hm.
Qed.

(** A status entry the lookup does not accept holds a value that is the
    value of no member. *)
Lemma status_not_acceptable d :
  ~ status_acceptable d ->
  exists v, d !! "status" = Some v /\ forall m, v <> PyStr (PurchaseStatus_value m).
Proof.
  intros Hnot. destruct (d !! "status") as [v|] eqn:Hv.
  - exists v. split; [reflexivity|]. intros m ->. apply Hnot. right. now exists m.
  - destruct Hnot. now left.
Qed.

Lemma status_acceptable_dec d : status_acceptable d \/ ~ status_acceptable d.
Proof.
  unfold status_acceptable. destruct (d !! "status") as [v|]; [|now left; left].
  destruct (enum_lookup_cases "PurchaseStatus" PurchaseStatus_value
              PurchaseStatus_members v) as [[m Hm] | Hraise].
  - apply enum_lookup_find in Hm as [-> _]. left. right. now exists m.
  - right. intros [Hnone | [m [= ->]]]; [discriminate|].
    change (PurchaseStatus_call (PyStr (PurchaseStatus_value m)) = Raise
              (EnumValueError "PurchaseStatus" (PyStr (PurchaseStatus_value m)))) in Hraise.
    rewrite PurchaseStatus_call_value in Hraise. discriminate.
Qed.

(** Decoding returns exactly for the payloads that parse to a record with
    an acceptable status; every other payload raises: the parser's error,
    the missing [get] of a value that is no record, or the lookup's
    [ValueError]. *)
Lemma PurchaseEvent_init_returns_iff e :
  returns (PurchaseEvent.__init__ e) = true <->
  exists d, Json.loads (ControlEvent.data e) = Ok (PyDict d) /\ status_acceptable d.
Proof.
  split.
  - intros Hret. destruct (Json.loads (ControlEvent.data e)) as [v|x] eqn:Hv.
    + destruct v as [| | | | | |d];
        try (rewrite (PurchaseEvent_init_not_dict e _ Hv) in Hret by discriminate;
             discriminate Hret).
      exists d. split; [reflexivity|].
      destruct (status_acceptable_dec d) as [Hacc | Hnot]; [exact Hacc|].
      apply status_not_acceptable in Hnot as [v [Hs Hno]].
      rewrite (PurchaseEvent_init_dict e d Hv) in Hret.
      unfold dict_get in Hret. rewrite Hs in Hret.
      rewrite (PurchaseStatus_call_unrecognized v Hno) in Hret. discriminate Hret.
    + rewrite (PurchaseEvent_init_unparsed e x Hv) in Hret. discriminate Hret.
  - intros [d [Hd Hacc]].
    destruct (PurchaseEvent_init_acceptable e d Hd Hacc) as [m [_ Hinit]].
    now rewrite Hinit.
Qed.

(** C2 (as amended): for a payload that parses as a structured record and
    whose status is either omitted or one of the five recognized values,
    decoding succeeds whatever subset of the four keys is omitted; an
    omitted [productId] or [transactionId] becomes the empty string, an
    omitted [status] becomes [ERROR], an omitted [errorMessage] becomes
    [None], and a key that is present passes its value through. *)
Theorem missing_keys_take_defaults (e : ControlEvent.t) (d : gmap string pyval) :
  Json.loads (ControlEvent.data e) = Ok (PyDict d) ->
  status_acceptable d ->
  exists ev,
    PurchaseEvent.__init__ e = Ok ev /\
    PurchaseEvent.event ev = e /\
    (d !! "productId" = None -> PurchaseEvent.product_id ev = PyStr "") /\
    (d !! "status" = None -> PurchaseEvent.status ev = ERROR) /\
    (d !! "transactionId" = None -> PurchaseEvent.transaction_id ev = PyStr "") /\
    (d !! "errorMessage" = None -> PurchaseEvent.error_message ev = PyNone) /\
    (forall v, d !! "productId" = Some v -> PurchaseEvent.product_id ev = v) /\
    (forall m, d !! "status" = Some (PyStr (PurchaseStatus_value m)) ->
               PurchaseEvent.status ev = m) /\
    (forall v, d !! "transactionId" = Some v -> PurchaseEvent.transaction_id ev = v) /\
    (forall v, d !! "errorMessage" = Some v -> PurchaseEvent.error_message ev = v).
Proof.
  intros Hd Hacc.
  destruct (PurchaseEvent_init_acceptable e d Hd Hacc) as [m [Hm Hinit]].
  eexists. split; [exact Hinit|]. cbn [PurchaseEvent.event PurchaseEvent.product_id
    PurchaseEvent.status PurchaseEvent.transaction_id PurchaseEvent.error_message].
  unfold dict_get in *.
  repeat split.
  - intros H. now rewrite H.
  - intros H. rewrite H in Hm. change (Ok ERROR = Ok m) in Hm. congruence.
  - intros H. now rewrite H.
  - intros H. now rewrite H.
  - intros v H. now rewrite H.
  - intros m' H. rewrite H in Hm.
    rewrite PurchaseStatus_call_value in Hm. congruence.
  - intros v H. now rewrite H.
  - intros v H. now rewrite H.
Qed.

Lemma missing_keys_take_defaults_witness :
  exists ev,
    PurchaseEvent.__init__ Examples.only_product_event = Ok ev /\
    PurchaseEvent.status ev = ERROR /\
    PurchaseEvent.transaction_id ev = PyStr "" /\
    PurchaseEvent.error_message ev = PyNone /\
    PurchaseEvent.product_id ev = PyStr "coins".
Proof.
  destruct (missing_keys_take_defaults Examples.only_product_event
              {[ "productId" := PyStr "coins" ]}) as [ev H].
  - vm_compute. reflexivity.
  - left. vm_compute. reflexivity.
  - destruct H as (Hinit & _ & _ & Hst & Htr & Herr & Hpid & _).
    exists ev. split; [exact Hinit|].
    split; [apply Hst; vm_compute; reflexivity|].
    split; [apply Htr; vm_compute; reflexivity|].
    split; [apply Herr; vm_compute; reflexivity|].
    apply Hpid. vm_compute. reflexivity.
Defined.

(** C2 as stated fails: the payload with [status] refunded and
    [transactionId] t1 parses as a record and omits [productId] and
    [errorMessage], and decoding it raises. *)
Lemma missing_keys_counterexample :
  exists d,
    Json.loads (ControlEvent.data Examples.refunded_event) = Ok (PyDict d) /\
    d !! "productId" = None /\
    d !! "errorMessage" = None /\
    returns (PurchaseEvent.__init__ Examples.refunded_event) = false.
Proof.
  exists {[ "status" := PyStr "refunded"; "transactionId" := PyStr "t1" ]}.
  split; [vm_compute; reflexivity|].
  split; [vm_compute; reflexivity|].
  split; vm_compute; reflexivity.
Qed.

(** The event of a purchase record: which member the status names, what
    the product and the transaction are. *)
Lemma purchase_record_round_trip
    (m : PurchaseStatus) (product transaction : string) (e : ControlEvent.t) :
  ControlEvent.data e =
    Json.dumps_record [("status", PurchaseStatus_value m); ("productId", product);
                       ("transactionId", transaction)] ->
  PurchaseEvent.__init__ e =
    Ok (PurchaseEvent.mk e (PyStr product) m (PyStr transaction) PyNone).
Proof.
  intros Hdata.
  rewrite (PurchaseEvent_init_dict e _ (eq_trans (f_equal Json.loads Hdata)
                                          (JsonFacts.loads_dumps_record _))).
  unfold Json.record_dict, Json.insert_field, dict_get. cbn [fold_left fst snd].
  rewrite lookup_insert_ne, lookup_insert_ne, lookup_insert_eq by discriminate.
  rewrite PurchaseStatus_call_value. cbn [bind].
  rewrite lookup_insert_ne, lookup_insert_eq by discriminate.
  rewrite lookup_insert_eq.
  rewrite !lookup_insert_ne, lookup_empty by discriminate.
  reflexivity.
Qed.

(** C8: the record with [status] purchased, [productId] coins and
    [transactionId] t1, serialized and decoded, is a [PurchaseEvent] with
    status [PURCHASED], product id coins, transaction id t1 and no error
    message, whatever the rest of the event is. *)
Theorem purchased_coins_round_trip (target name : string) (control : InAppPurchase) (page : Page) :
  let payload :=
    Json.dumps_record [("status", "purchased"); ("productId", "coins");
                       ("transactionId", "t1")] in
  let e := ControlEvent.mk target name payload control page in
  PurchaseEvent.__init__ e =
    Ok (PurchaseEvent.mk e (PyStr "coins") PURCHASED (PyStr "t1") PyNone).
Proof.
  intros payload e.
  exact (purchase_record_round_trip PURCHASED "coins" "t1" e eq_refl).
Qed.

(** The same record without the spaces [json.dumps] puts after the
    separators decodes to the same event. *)
Lemma purchased_coins_compact :
  let e := Examples.purchase_updated Examples.purchased_coins_compact_text in
  PurchaseEvent.__init__ e =
    Ok (PurchaseEvent.mk e (PyStr "coins") PURCHASED (PyStr "t1") PyNone).
Proof.
  intros e.
  assert (Json.loads (ControlEvent.data e) =
          Ok (PyDict (Json.record_dict [("status", "purchased"); ("productId", "coins");
                                        ("transactionId", "t1")]))) as Hd.
  { vm_compute. reflexivity. }
  rewrite (PurchaseEvent_init_dict e _ Hd). reflexivity.
Qed.

(* ===================================================================== *)
(** * Constructing a [ProductDetails] *)
(* ===================================================================== *)

(** The constructor on a record whose type entry the lookup accepts. *)
Lemma ProductDetails_init_ok data m :
  ProductType_call (dict_get data "type" (PyStr "consumable")) = Ok m ->
  ProductDetails.__init__ data =
    Ok (ProductDetails.mk
          (dict_get data "id" (PyStr "")) (dict_get data "title" (PyStr ""))
          (dict_get data "description" (PyStr "")) (dict_get data "price" (PyStr ""))
          (dict_get data "rawPrice" (PyFloat (S754_zero false)))
          (dict_get data "currencyCode" (PyStr ""))
          (dict_get data "currencySymbol" (PyStr "")) m).
Proof. intros Hm. unfold ProductDetails.__init__. now rewrite Hm. Qed.

(** C3 (as amended): constructing [ProductDetails] from a record with no
    [type] key does not raise and yields type [CONSUMABLE], with the
    defaults of the other absent fields; a [type] key that holds one of
    the three recognized values yields that type; a [type] key that holds
    any other value makes the construction raise the [ValueError] of the
    enumeration lookup, so that field fails the record. *)
Theorem product_type_default_and_failure (data : gmap string pyval) :
  (data !! "type" = None ->
     exists pd, ProductDetails.__init__ data = Ok pd /\
                ProductDetails.type pd = CONSUMABLE /\
                (data !! "price" = None -> ProductDetails.price pd = PyStr "") /\
                (data !! "rawPrice" = None ->
                   ProductDetails.raw_price pd = PyFloat (S754_zero false))) /\
  (forall m, data !! "type" = Some (PyStr (ProductType_value m)) ->
     exists pd, ProductDetails.__init__ data = Ok pd /\ ProductDetails.type pd = m) /\
  (forall v, data !! "type" = Some v ->
     (forall m, v <> PyStr (ProductType_value m)) ->
     ProductDetails.__init__ data = Raise (EnumValueError "ProductType" v)).
Proof.
  split; [|split].
  - intros Hnone.
    assert (ProductType_call (dict_get data "type" (PyStr "consumable")) = Ok CONSUMABLE)
      as Hm by (unfold dict_get; now rewrite Hnone).
    eexists. split; [exact (ProductDetails_init_ok data _ Hm)|].
    cbn [ProductDetails.type ProductDetails.price ProductDetails.raw_price].
    unfold dict_get. split; [reflexivity|].
    split; intros H; now rewrite H.
  - intros m Hsome.
    assert (ProductType_call (dict_get data "type" (PyStr "consumable")) = Ok m) as Hm.
    { unfold dict_get. rewrite Hsome. apply ProductType_call_value. }
    eexists. split; [exact (ProductDetails_init_ok data _ Hm)|]. reflexivity.
  - intros v Hsome Hno. unfold ProductDetails.__init__, dict_get. rewrite Hsome.
    now rewrite (ProductType_call_unrecognized v Hno).
Qed.

Lemma bundle_not_a_type (m : ProductType) : PyStr "bundle" <> PyStr (ProductType_value m).
Proof. destruct m; discriminate. Qed.

Lemma product_type_default_and_failure_witness :
  (exists pd, ProductDetails.__init__ Examples.bare_record = Ok pd /\
              ProductDetails.type pd = CONSUMABLE) /\
  ProductDetails.__init__ Examples.bundle_record
  = Raise (EnumValueError "ProductType" (PyStr "bundle")).
Proof.
  split.
  - destruct (product_type_default_and_failure Examples.bare_record) as [Habsent _].
    destruct Habsent as [pd [Hpd [Hty _]]]; [vm_compute; reflexivity|].
    exists pd. split; assumption.
  - destruct (product_type_default_and_failure Examples.bundle_record) as (_ & _ & Hbad).
    apply Hbad; [vm_compute; reflexivity | exact bundle_not_a_type].
Defined.

(** C3 as stated fails: the record with [id] p1 and [type] bundle holds an
    unrecognized type, and constructing [ProductDetails] from it raises
    instead of yielding type [CONSUMABLE]. *)
Lemma product_type_counterexample :
  Examples.bundle_record !! "type" = Some (PyStr "bundle") /\
  (forall m, PyStr "bundle" <> PyStr (ProductType_value m)) /\
  ~ (exists pd, ProductDetails.__init__ Examples.bundle_record = Ok pd /\
                ProductDetails.type pd = CONSUMABLE).
Proof.
  split; [vm_compute; reflexivity|].
  split; [exact bundle_not_a_type|].
  intros [pd [Hpd _]]. vm_compute in Hpd. discriminate Hpd.
Qed.

(* ===================================================================== *)
(** * The platform guard *)
(* ===================================================================== *)

Lemma platform_in_mobile (x : PagePlatform) :
  platform_in x [ANDROID; IOS] = true <-> x = ANDROID \/ x = IOS.
Proof.
  split.
  - destruct x; cbn; intros H; try discriminate H; auto.
  - intros [-> | ->]; reflexivity.
Qed.

Lemma guard_rejects_or_attached (self : InAppPurchase) :
  guard_rejects self \/ attached_to_mobile self.
Proof.
  unfold guard_rejects, attached_to_mobile.
  destruct (page self) as [p|]; [|left; left; reflexivity].
  destruct (platform p) as [x|] eqn:Hx.
  - destruct (platform_in x [ANDROID; IOS]) eqn:Hin.
    + right. exists p. split; [reflexivity|].
      apply platform_in_mobile in Hin as [-> | ->]; auto.
    + left. right. exists p. split; [reflexivity|]. rewrite Hx.
      split; intros [= ->]; discriminate Hin.
  - left. right. exists p. rewrite Hx. split; [reflexivity|]. split; discriminate.
Qed.

Lemma guard_rejects_not_attached (self : InAppPurchase) :
  guard_rejects self -> ~ attached_to_mobile self.
Proof.
  intros [Hnone | [p [Hp [Ha Hi]]]] [q [Hq Hmob]].
  - congruence.
  - assert (p = q) as -> by congruence. tauto.
Qed.

Lemma check_passes (self : InAppPurchase) (sent : list Request) :
  attached_to_mobile self ->
  _check_mobile_platform self sent = (Ok tt, sent).
Proof.
  intros [p [Hp Hmob]]. unfold _check_mobile_platform, mbind, lift, Page_platform.
  rewrite Hp. destruct Hmob as [-> | ->]; reflexivity.
Qed.

Lemma check_rejects (self : InAppPurchase) (sent : list Request) :
  guard_rejects self ->
  _check_mobile_platform self sent = (Raise (guard_error self), sent).
Proof.
  unfold _check_mobile_platform, guard_error, mbind, lift, Page_platform.
  intros [Hnone | [p [Hp [Ha Hi]]]].
  - now rewrite Hnone.
  - rewrite Hp. destruct (platform p) as [x|]; [|reflexivity].
    destruct (platform_in x [ANDROID; IOS]) eqn:Hin; [|reflexivity].
    apply platform_in_mobile in Hin as [-> | ->]; congruence.
Qed.

(** A command that starts with a raising step stops there. *)
Lemma mbind_raise {A B} (m : M A) (k : A -> M B) sent e sent' :
  m sent = (Raise e, sent') -> mbind m k sent = (Raise e, sent').
Proof. intros H. unfold mbind. now rewrite H. Qed.

Lemma mbind_ok {A B} (m : M A) (k : A -> M B) sent a sent' :
  m sent = (Ok a, sent') -> mbind m k sent = k a sent'.
Proof. intros H. unfold mbind. now rewrite H. Qed.

(* ===================================================================== *)
(** * Properties of the commands *)
(* ===================================================================== *)

Section CommandProperties.

Variable bridge : Request -> result (option string).

(** C4: when the control is on no page, or on a page whose platform is
    neither Android nor iOS, each of the six commands raises the guard's
    error (the failed assertion, or the unsupported-platform error) and
    the requests issued are those issued before the call: none is
    added. *)
Theorem guard_stops_every_command
    (self : InAppPurchase) (sent : list Request)
    (ids product_id transaction_id : pyval) (wait_timeout_arg : option pyval) :
  guard_rejects self ->
  initialize bridge self sent = (Raise (guard_error self), sent) /\
  query_products bridge self ids sent = (Raise (guard_error self), sent) /\
  buy_product bridge self product_id sent = (Raise (guard_error self), sent) /\
  restore_purchases bridge self sent = (Raise (guard_error self), sent) /\
  get_past_purchases bridge self wait_timeout_arg sent = (Raise (guard_error self), sent) /\
  finish_transaction bridge self transaction_id sent = (Raise (guard_error self), sent).
Proof.
  intros Hrej. pose proof (check_rejects self sent Hrej) as Hcheck.
  repeat split; apply mbind_raise; exact Hcheck.
Qed.

(** The resolved ID list of [query_products]. *)
Lemma query_products_resolved (self : InAppPurchase) (ids : pyval) (sent : list Request) :
  attached_to_mobile self ->
  query_products bridge self ids sent =
    let resolved := py_or ids (product_ids self) in
    if truthy resolved
    then (_ <- bridge (query_products_request resolved) ;; Ok tt,
          (sent ++ [query_products_request resolved])%list)
    else (Raise (ValueError no_ids_msg), sent).
Proof.
  intros Hmob. unfold query_products.
  rewrite (mbind_ok _ _ sent tt sent (check_passes self sent Hmob)).
  cbv zeta. destruct (truthy (py_or ids (product_ids self))); cbn [negb].
  - unfold mbind, invoke_method, ret.
    destruct (bridge _); reflexivity.
  - reflexivity.
Qed.

(** C5: [query_products] with an empty or absent ID list, on a control
    with no default product IDs, raises and issues no request; when the
    platform guard passes, what it raises is the validation error. *)
Theorem query_products_without_ids
    (self : InAppPurchase) (ids : pyval) (sent : list Request) :
  ids = PyNone \/ ids = PyList [] ->
  truthy (product_ids self) = false ->
  (exists e, query_products bridge self ids sent = (Raise e, sent)) /\
  (attached_to_mobile self ->
   query_products bridge self ids sent = (Raise (ValueError no_ids_msg), sent)).
Proof.
  intros Hids Hdef.
  assert (truthy (py_or ids (product_ids self)) = false) as Hres.
  { destruct Hids as [-> | ->]; exact Hdef. }
  assert (attached_to_mobile self ->
          query_products bridge self ids sent = (Raise (ValueError no_ids_msg), sent)) as Hval.
  { intros Hmob. rewrite (query_products_resolved self ids sent Hmob).
    cbv zeta. now rewrite Hres. }
  split; [|exact Hval].
  destruct (guard_rejects_or_attached self) as [Hrej | Hmob].
  - exists (guard_error self).
    apply mbind_raise, check_rejects, Hrej.
  - eexists. exact (Hval Hmob).
Qed.

(** C7: [query_products(None)] on a control whose default list is a, b
    issues exactly one request, the [query_products] request whose
    [productIds] argument is the list a, b. *)
Theorem query_products_none_sends_default (self : InAppPurchase) (sent : list Request) :
  attached_to_mobile self ->
  product_ids self = PyList [PyStr "a"; PyStr "b"] ->
  exists req,
    snd (query_products bridge self PyNone sent) = (sent ++ [req])%list /\
    method_name req = "query_products" /\
    arguments req = Some {[ "productIds" := PyList [PyStr "a"; PyStr "b"] ]} /\
    fst (query_products bridge self PyNone sent) = (_ <- bridge req ;; Ok tt).
Proof.
  intros Hmob Hdef.
  exists (query_products_request (PyList [PyStr "a"; PyStr "b"])).
  rewrite (query_products_resolved self PyNone sent Hmob).
  unfold py_or. cbn [truthy]. rewrite Hdef. cbn [truthy].
  repeat split.
Qed.

(** C9: [query_products] with the empty list is the same call as
    [query_products] with [None]: both resolve to the default product
    IDs; on a supported platform the request carries the default when it
    is not empty, and the validation error is raised, with nothing sent,
    exactly when the default is empty too. *)
Theorem empty_list_falls_back_like_none (self : InAppPurchase) (sent : list Request) :
  query_products bridge self (PyList []) sent = query_products bridge self PyNone sent /\
  (attached_to_mobile self ->
   (truthy (product_ids self) = true ->
    query_products bridge self (PyList []) sent =
      (_ <- bridge (query_products_request (product_ids self)) ;; Ok tt,
       (sent ++ [query_products_request (product_ids self)])%list)) /\
   (query_products bridge self (PyList []) sent = (Raise (ValueError no_ids_msg), sent)
    <-> truthy (product_ids self) = false)).
Proof.
  split; [reflexivity|].
  intros Hmob. rewrite (query_products_resolved self (PyList []) sent Hmob).
  unfold py_or. cbn [truthy]. cbv zeta.
  destruct (truthy (product_ids self)).
  - split; [reflexivity|]. split; [|discriminate].
    intros [= _ Hsent]. apply (f_equal length) in Hsent.
    rewrite length_app in Hsent. cbn in Hsent. lia.
  - split; [discriminate|]. split; reflexivity.
Qed.

(** [get_past_purchases] once the guard has passed: one request, then the
    reply resolved by truthiness. *)
Lemma get_past_purchases_reply
    (self : InAppPurchase) (wait_timeout_arg : option pyval) (sent : list Request) :
  attached_to_mobile self ->
  let req := get_past_purchases_request
               (match wait_timeout_arg with Some t => t | None => PyInt 10 end) in
  get_past_purchases bridge self wait_timeout_arg sent =
    (reply <- bridge req ;; past_purchases_of reply, (sent ++ [req])%list).
Proof.
  intros Hmob req. unfold get_past_purchases.
  rewrite (mbind_ok _ _ sent tt sent (check_passes self sent Hmob)).
  subst req. unfold mbind, invoke_method, lift, default_wait_timeout.
  destruct (bridge _); reflexivity.
Qed.

(** C6 (as amended): when the bridge call gives back no text ([None], or
    the empty string), [get_past_purchases] returns the empty list; when
    no result arrives within the wait budget, the [TimeoutError] of
    [invoke_method] goes through: the call raises it and returns no list.
    The request waits for a result with the timeout the caller supplied,
    and with 10 when the caller supplied none. *)
Theorem timeout_raises_and_no_text_gives_empty_list
    (self : InAppPurchase) (wait_timeout_arg : option pyval) (sent : list Request) :
  attached_to_mobile self ->
  let req := get_past_purchases_request
               (match wait_timeout_arg with Some t => t | None => PyInt 10 end) in
  wait_for_result req = true /\
  wait_timeout req = Some (match wait_timeout_arg with Some t => t | None => PyInt 10 end) /\
  (bridge req = Ok None \/ bridge req = Ok (Some "") ->
   get_past_purchases bridge self wait_timeout_arg sent
     = (Ok (PyList []), (sent ++ [req])%list)) /\
  (forall msg, bridge req = Raise (TimeoutError msg) ->
   get_past_purchases bridge self wait_timeout_arg sent
     = (Raise (TimeoutError msg), (sent ++ [req])%list)).
Proof.
  intros Hmob req.
  rewrite (get_past_purchases_reply self wait_timeout_arg sent Hmob). fold req.
  split; [reflexivity|]. split; [reflexivity|]. split.
  - intros [Hnone | Hempty]; [rewrite Hnone | rewrite Hempty]; reflexivity.
  - intros msg Htimeout. rewrite Htimeout. reflexivity.
Qed.

(** C10 (as amended): once the bridge has answered, [get_past_purchases]
    returns the empty list whenever the answer is absent or the empty
    string, and otherwise returns the answer parsed as JSON, raising what
    the parser raises when the answer is not valid JSON.  The empty list
    is therefore returned exactly when the answer is absent, is the empty
    string, or is a text that parses to the empty list. *)
Theorem past_purchases_by_truthiness
    (self : InAppPurchase) (wait_timeout_arg : option pyval) (sent : list Request)
    (reply : option string) :
  attached_to_mobile self ->
  let req := get_past_purchases_request
               (match wait_timeout_arg with Some t => t | None => PyInt 10 end) in
  bridge req = Ok reply ->
  let outcome := fst (get_past_purchases bridge self wait_timeout_arg sent) in
  (reply = None \/ reply = Some "" -> outcome = Ok (PyList [])) /\
  (forall s, reply = Some s -> s <> "" -> outcome = Json.loads s) /\
  (forall s x, reply = Some s -> s <> "" -> Json.loads s = Raise x -> outcome = Raise x) /\
  (outcome = Ok (PyList []) <->
   reply = None \/ reply = Some "" \/
   exists s, reply = Some s /\ Json.loads s = Ok (PyList [])).
Proof.
  intros Hmob req Hreply outcome.
  assert (outcome = past_purchases_of reply) as Hout.
  { unfold outcome. rewrite (get_past_purchases_reply self wait_timeout_arg sent Hmob).
    fold req. now rewrite Hreply. }
  assert (forall s, s <> "" -> past_purchases_of (Some s) = Json.loads s) as Hparse.
  { intros s Hs. unfold past_purchases_of.
    destruct (String.eqb s "") eqn:Heq; [|reflexivity].
    apply String.eqb_eq in Heq. contradiction. }
  rewrite Hout. split; [|split; [|split]].
  - intros [-> | ->]; reflexivity.
  - intros s -> Hs. now apply Hparse.
  - intros s x -> Hs Hx. rewrite <- Hx. now apply Hparse.
  - split.
    + destruct reply as [s|]; [|now left].
      destruct (string_dec s "") as [-> | Hs]; [now right; left|].
      rewrite (Hparse s Hs). intros Hl. right. right. now exists s.
    + intros [-> | [-> | [s [-> Hl]]]]; try reflexivity.
      destruct (string_dec s "") as [-> | Hs]; [reflexivity|].
      now rewrite (Hparse s Hs).
Qed.

End CommandProperties.

(* ===================================================================== *)
(** * The command properties on concrete controls and bridges *)
(* ===================================================================== *)

Lemma android_control_attached : attached_to_mobile Examples.android_control.
Proof. exists Examples.android_page. split; [reflexivity | left; reflexivity]. Qed.

Lemma ios_control_attached : attached_to_mobile Examples.ios_control.
Proof. exists Examples.ios_page. split; [reflexivity | right; reflexivity]. Qed.

Lemma ab_control_attached : attached_to_mobile Examples.ab_control.
Proof. exists Examples.android_page. split; [reflexivity | left; reflexivity]. Qed.

Lemma linux_control_rejected : guard_rejects Examples.linux_control.
Proof.
  right. exists Examples.linux_page.
  split; [reflexivity | split; discriminate].
Qed.

Lemma fresh_control_rejected : guard_rejects Examples.fresh_control.
Proof. left. reflexivity. Qed.

Lemma guard_stops_every_command_witness :
  (initialize Examples.silent_bridge Examples.linux_control []
     = (Raise (Exception unsupported_msg), []) /\
   query_products Examples.silent_bridge Examples.linux_control Examples.ab_ids []
     = (Raise (Exception unsupported_msg), []) /\
   buy_product Examples.silent_bridge Examples.linux_control (PyStr "coins") []
     = (Raise (Exception unsupported_msg), []) /\
   restore_purchases Examples.silent_bridge Examples.linux_control []
     = (Raise (Exception unsupported_msg), []) /\
   get_past_purchases Examples.silent_bridge Examples.linux_control None []
     = (Raise (Exception unsupported_msg), []) /\
   finish_transaction Examples.silent_bridge Examples.linux_control (PyStr "t1") []
     = (Raise (Exception unsupported_msg), [])) /\
  (initialize Examples.silent_bridge Examples.fresh_control []
     = (Raise (AssertionError not_attached_msg), []) /\
   query_products Examples.silent_bridge Examples.fresh_control Examples.ab_ids []
     = (Raise (AssertionError not_attached_msg), []) /\
   buy_product Examples.silent_bridge Examples.fresh_control (PyStr "coins") []
     = (Raise (AssertionError not_attached_msg), []) /\
   restore_purchases Examples.silent_bridge Examples.fresh_control []
     = (Raise (AssertionError not_attached_msg), []) /\
   get_past_purchases Examples.silent_bridge Examples.fresh_control None []
     = (Raise (AssertionError not_attached_msg), []) /\
   finish_transaction Examples.silent_bridge Examples.fresh_control (PyStr "t1") []
     = (Raise (AssertionError not_attached_msg), [])).
Proof.
  split.
  - exact (guard_stops_every_command Examples.silent_bridge Examples.linux_control []
             Examples.ab_ids (PyStr "coins") (PyStr "t1") None linux_control_rejected).
  - exact (guard_stops_every_command Examples.silent_bridge Examples.fresh_control []
             Examples.ab_ids (PyStr "coins") (PyStr "t1") None fresh_control_rejected).
Defined.

Lemma query_products_without_ids_witness :
  query_products Examples.silent_bridge Examples.android_control (PyList []) []
  = (Raise (ValueError no_ids_msg), []).
Proof.
  destruct (query_products_without_ids Examples.silent_bridge Examples.android_control
              (PyList []) []) as [_ Hval].
  - right. reflexivity.
  - vm_compute. reflexivity.
  - apply Hval. exact android_control_attached.
Defined.

Lemma query_products_none_sends_default_witness :
  exists req,
    snd (query_products Examples.silent_bridge Examples.ab_control PyNone [])
      = [req] /\
    method_name req = "query_products" /\
    arguments req = Some {[ "productIds" := PyList [PyStr "a"; PyStr "b"] ]} /\
    fst (query_products Examples.silent_bridge Examples.ab_control PyNone []) = Ok tt.
Proof.
  destruct (query_products_none_sends_default Examples.silent_bridge Examples.ab_control [])
    as [req (Hsent & Hname & Hargs & Hres)].
  - exact ab_control_attached.
  - vm_compute. reflexivity.
  - exists req. repeat split; assumption.
Defined.

Lemma empty_list_falls_back_like_none_witness :
  query_products Examples.silent_bridge Examples.ab_control (PyList []) []
  = (Ok tt, [query_products_request Examples.ab_ids]) /\
  query_products Examples.silent_bridge Examples.android_control (PyList []) []
  = (Raise (ValueError no_ids_msg), []).
Proof.
  split.
  - destruct (empty_list_falls_back_like_none Examples.silent_bridge Examples.ab_control [])
      as [_ Hmob].
    destruct (Hmob ab_control_attached) as [Hsend _].
    apply Hsend. vm_compute. reflexivity.
  - destruct (empty_list_falls_back_like_none Examples.silent_bridge
                Examples.android_control []) as [_ Hmob].
    destruct (Hmob android_control_attached) as [_ Hiff].
    apply Hiff. vm_compute. reflexivity.
Defined.

Lemma timeout_raises_and_no_text_gives_empty_list_witness :
  get_past_purchases Examples.silent_bridge Examples.android_control None []
  = (Ok (PyList []), [get_past_purchases_request (PyInt 10)]) /\
  get_past_purchases (Examples.constant_bridge "") Examples.ios_control (Some (PyInt 3)) []
  = (Ok (PyList []), [get_past_purchases_request (PyInt 3)]) /\
  get_past_purchases MoreExamples.timing_out_bridge Examples.ios_control (Some (PyInt 3)) []
  = (Raise (TimeoutError MoreExamples.past_purchases_timeout_msg),
     [get_past_purchases_request (PyInt 3)]).
Proof.
  split; [|split].
  - destruct (timeout_raises_and_no_text_gives_empty_list Examples.silent_bridge
                Examples.android_control None [] android_control_attached)
      as (_ & _ & Hnone & _).
    apply Hnone. left. reflexivity.
  - destruct (timeout_raises_and_no_text_gives_empty_list (Examples.constant_bridge "")
                Examples.ios_control (Some (PyInt 3)) [] ios_control_attached)
      as (_ & _ & Hnone & _).
    apply Hnone. right. reflexivity.
  - destruct (timeout_raises_and_no_text_gives_empty_list MoreExamples.timing_out_bridge
                Examples.ios_control (Some (PyInt 3)) [] ios_control_attached)
      as (_ & _ & _ & Htimeout).
    apply Htimeout. reflexivity.
Defined.

(** C6 as stated fails: on a bridge where no result arrives within the
    wait budget, [invoke_method] raises [TimeoutError] for the waiting
    request, and [get_past_purchases] raises it instead of returning the
    empty list. *)
Lemma timeout_counterexample :
  MoreExamples.timing_out_bridge (get_past_purchases_request (PyInt 10))
    = Raise (TimeoutError MoreExamples.past_purchases_timeout_msg) /\
  get_past_purchases MoreExamples.timing_out_bridge Examples.android_control None []
    = (Raise (TimeoutError MoreExamples.past_purchases_timeout_msg),
       [get_past_purchases_request (PyInt 10)]) /\
  returns (fst (get_past_purchases MoreExamples.timing_out_bridge
                  Examples.android_control None [])) = false.
Proof.
  split; [reflexivity|]. split; vm_compute; reflexivity.
Qed.

Lemma past_purchases_by_truthiness_witness :
  fst (get_past_purchases (Examples.constant_bridge "") Examples.android_control None [])
  = Ok (PyList []) /\
  fst (get_past_purchases (Examples.constant_bridge "[1, 2]") Examples.android_control None [])
  = Ok (PyList [PyInt 1; PyInt 2]) /\
  fst (get_past_purchases (Examples.constant_bridge "[1, 2") Examples.android_control None [])
  = Raise JSONDecodeError.
Proof.
  split; [|split].
  - destruct (past_purchases_by_truthiness (Examples.constant_bridge "")
                Examples.android_control None [] (Some "")
                android_control_attached eq_refl) as [Hempty _].
    apply Hempty. right. reflexivity.
  - destruct (past_purchases_by_truthiness (Examples.constant_bridge "[1, 2]")
                Examples.android_control None [] (Some "[1, 2]")
                android_control_attached eq_refl) as (_ & Hparse & _).
    rewrite (Hparse "[1, 2]" eq_refl); [vm_compute; reflexivity | discriminate].
  - destruct (past_purchases_by_truthiness (Examples.constant_bridge "[1, 2")
                Examples.android_control None [] (Some "[1, 2")
                android_control_attached eq_refl) as (_ & _ & Hraise & _).
    apply (Hraise "[1, 2"); [reflexivity | discriminate | vm_compute; reflexivity].
Defined.

(** C10 as stated fails: a bridge that answers with the text of an empty
    JSON list gives an answer that is neither absent nor the empty string,
    and [get_past_purchases] returns the empty list all the same. *)
Lemma empty_list_counterexample :
  let reply := Some "[]" in
  Examples.constant_bridge "[]" (get_past_purchases_request (PyInt 10)) = Ok reply /\
  reply <> None /\
  reply <> Some "" /\
  get_past_purchases (Examples.constant_bridge "[]") Examples.android_control None []
  = (Ok (PyList []), [get_past_purchases_request (PyInt 10)]).
Proof.
  cbv zeta. split; [reflexivity|].
  split; [discriminate|].
  split; [discriminate|].
  vm_compute. reflexivity.
Qed.

(* ===================================================================== *)
(** * Further properties of the decoding, the guard and the commands *)
(* ===================================================================== *)

(** X1: the outcomes of decoding a purchase event.  A payload on which
    [json.loads] raises makes the decoding raise that same exception
    ([JSONDecodeError] for a text that is no JSON); one that parses to
    anything but a record raises [AttributeError]; a record with no status
    decodes with status [ERROR]; a record whose status is the value of a
    member decodes with that member; a record with any other status
    raises the [ValueError] of the lookup. *)
Theorem decoding_outcomes (e : ControlEvent.t) :
  match Json.loads (ControlEvent.data e) with
  | Raise x => PurchaseEvent.__init__ e = Raise x
  | Ok (PyDict d) =>
      match d !! "status" with
      | None =>
          exists ev, PurchaseEvent.__init__ e = Ok ev /\ PurchaseEvent.status ev = ERROR
      | Some v =>
          (exists m, v = PyStr (PurchaseStatus_value m) /\
                     exists ev, PurchaseEvent.__init__ e = Ok ev /\
                                PurchaseEvent.status ev = m) \/
          ((forall m, v <> PyStr (PurchaseStatus_value m)) /\
           PurchaseEvent.__init__ e = Raise (EnumValueError "PurchaseStatus" v))
      end
  | Ok _ => PurchaseEvent.__init__ e = Raise (AttributeError "get")
  end.
Proof.
  destruct (Json.loads (ControlEvent.data e)) as [v|x] eqn:Hv.
  - destruct v as [| | | | | |d];
      try (apply (PurchaseEvent_init_not_dict e _ Hv); discriminate).
    rewrite (PurchaseEvent_init_dict e d Hv). unfold dict_get.
    destruct (d !! "status") as [v|].
    + destruct (enum_lookup_cases "PurchaseStatus" PurchaseStatus_value
                  PurchaseStatus_members v) as [[m Hm] | Hraise].
      * left. exists m. fold PurchaseStatus_call in Hm.
        split; [exact (proj1 (enum_lookup_find _ _ _ _ _ Hm))|].
        rewrite Hm. eexists. split; reflexivity.
      * right. fold PurchaseStatus_call in Hraise. split.
        -- intros m ->. rewrite PurchaseStatus_call_value in Hraise. discriminate.
        -- now rewrite Hraise.
    + eexists. split; reflexivity.
  - exact (PurchaseEvent_init_unparsed e x Hv).
Qed.

(** X2: a status that is present but is not a string (a JSON null, number,
    boolean, list or object) makes the decoding raise the lookup's
    [ValueError]: the default [ERROR] stands in for a missing key only,
    not for a null one. *)
Theorem non_string_status_raises (e : ControlEvent.t) (d : gmap string pyval) (v : pyval) :
  Json.loads (ControlEvent.data e) = Ok (PyDict d) ->
  d !! "status" = Some v ->
  (forall s, v <> PyStr s) ->
  PurchaseEvent.__init__ e = Raise (EnumValueError "PurchaseStatus" v).
Proof.
  intros Hd Hs Hns. rewrite (PurchaseEvent_init_dict e d Hd).
  unfold dict_get. rewrite Hs.
  rewrite PurchaseStatus_call_unrecognized; [reflexivity|].
  intros m ->. now apply (Hns (PurchaseStatus_value m)).
Qed.

Lemma non_string_status_raises_witness :
  PurchaseEvent.__init__ MoreExamples.null_status_event
  = Raise (EnumValueError "PurchaseStatus" PyNone).
Proof.
  apply (non_string_status_raises MoreExamples.null_status_event {[ "status" := PyNone ]}).
  - vm_compute. reflexivity.
  - vm_compute. reflexivity.
  - discriminate.
Defined.

(** What the constructor computes from a parsed record depends on the
    four entries it reads. *)
Lemma decoded_fields_of_dict e d :
  Json.loads (ControlEvent.data e) = Ok (PyDict d) ->
  decoded_fields (PurchaseEvent.__init__ e) =
    (status <- PurchaseStatus_call (dict_get d "status" (PyStr "error")) ;;
     Ok (dict_get d "productId" (PyStr ""), status,
         dict_get d "transactionId" (PyStr ""), dict_get d "errorMessage" PyNone)).
Proof.
  intros Hd. rewrite (PurchaseEvent_init_dict e d Hd).
  now destruct (PurchaseStatus_call _).
Qed.

(** X3: decoding reads the four keys [productId], [status],
    [transactionId] and [errorMessage] and nothing else: two payloads
    whose records agree on these keys give the same four fields, or raise
    the same exception, whatever other keys they carry. *)
Theorem decoding_reads_only_its_four_keys
    (e1 e2 : ControlEvent.t) (d1 d2 : gmap string pyval) :
  Json.loads (ControlEvent.data e1) = Ok (PyDict d1) ->
  Json.loads (ControlEvent.data e2) = Ok (PyDict d2) ->
  (forall k, In k purchase_keys -> d1 !! k = d2 !! k) ->
  decoded_fields (PurchaseEvent.__init__ e1) = decoded_fields (PurchaseEvent.__init__ e2).
Proof.
  intros H1 H2 Hagree.
  rewrite (decoded_fields_of_dict e1 d1 H1), (decoded_fields_of_dict e2 d2 H2).
  unfold dict_get.
  rewrite (Hagree "status"), (Hagree "productId"), (Hagree "transactionId"),
    (Hagree "errorMessage"); cbn; auto 6.
Qed.

Lemma decoding_reads_only_its_four_keys_witness :
  decoded_fields (PurchaseEvent.__init__ MoreExamples.coins_event)
  = decoded_fields (PurchaseEvent.__init__ MoreExamples.coins_extra_event).
Proof.
  apply (decoding_reads_only_its_four_keys
           MoreExamples.coins_event MoreExamples.coins_extra_event
           {[ "productId" := PyStr "coins" ]}
           {[ "productId" := PyStr "coins"; "price" := PyStr "0.99" ]}).
  - vm_compute. reflexivity.
  - vm_compute. reflexivity.
  - intros k [<- | [<- | [<- | [<- | []]]]]; vm_compute; reflexivity.
Defined.

(** X4: a record with all four fields round-trips: for every status
    member and every product, transaction and message text, decoding the
    written record gives back the member and the three texts. *)
Theorem full_record_round_trip
    (m : PurchaseStatus) (product transaction message : string) (e : ControlEvent.t) :
  ControlEvent.data e =
    Json.dumps_record [("productId", product); ("status", PurchaseStatus_value m);
                       ("transactionId", transaction); ("errorMessage", message)] ->
  PurchaseEvent.__init__ e =
    Ok (PurchaseEvent.mk e (PyStr product) m (PyStr transaction) (PyStr message)).
Proof.
  intros Hdata.
  rewrite (PurchaseEvent_init_dict e _ (eq_trans (f_equal Json.loads Hdata)
                                          (JsonFacts.loads_dumps_record _))).
  unfold Json.record_dict, Json.insert_field, dict_get. cbn [fold_left fst snd].
  rewrite !(lookup_insert_ne _ _ "status"), (lookup_insert_eq _ "status") by discriminate.
  rewrite PurchaseStatus_call_value. cbn [bind].
  rewrite !(lookup_insert_ne _ _ "productId"), (lookup_insert_eq _ "productId") by discriminate.
  rewrite !(lookup_insert_ne _ _ "transactionId"), (lookup_insert_eq _ "transactionId")
    by discriminate.
  rewrite (lookup_insert_eq _ "errorMessage").
  reflexivity.
Qed.

Lemma full_record_round_trip_witness :
  PurchaseEvent.__init__
    (Examples.purchase_updated (Json.dumps_record MoreExamples.canceled_record))
  = Ok (PurchaseEvent.mk
          (Examples.purchase_updated (Json.dumps_record MoreExamples.canceled_record))
          (PyStr "coins") CANCELED (PyStr "t7") (PyStr "user canceled")).
Proof.
  apply (full_record_round_trip CANCELED "coins" "t7" "user canceled"). reflexivity.
Defined.

(** X5: a missing status cannot be told from the status error: a record
    with no [status] key and the same record with [status] set to error
    decode to the same four fields, with status [ERROR]. *)
Theorem absent_status_reads_as_error
    (e1 e2 : ControlEvent.t) (d : gmap string pyval) :
  Json.loads (ControlEvent.data e1) = Ok (PyDict d) ->
  d !! "status" = None ->
  Json.loads (ControlEvent.data e2) = Ok (PyDict (<["status" := PyStr "error"]> d)) ->
  exists product_id transaction_id error_message,
    decoded_fields (PurchaseEvent.__init__ e1)
      = Ok (product_id, ERROR, transaction_id, error_message) /\
    decoded_fields (PurchaseEvent.__init__ e2)
      = Ok (product_id, ERROR, transaction_id, error_message).
Proof.
  intros H1 Hnone H2.
  rewrite (decoded_fields_of_dict e1 d H1), (decoded_fields_of_dict e2 _ H2).
  unfold dict_get. rewrite Hnone, lookup_insert_eq.
  rewrite !lookup_insert_ne by discriminate.
  do 3 eexists. split; reflexivity.
Qed.

Lemma absent_status_reads_as_error_witness :
  decoded_fields (PurchaseEvent.__init__ MoreExamples.coins_event)
    = Ok (PyStr "coins", ERROR, PyStr "", PyNone) /\
  decoded_fields (PurchaseEvent.__init__ MoreExamples.coins_error_event)
    = Ok (PyStr "coins", ERROR, PyStr "", PyNone).
Proof.
  destruct (absent_status_reads_as_error
              MoreExamples.coins_event MoreExamples.coins_error_event
              {[ "productId" := PyStr "coins" ]})
    as (p & t & msg & H1 & H2).
  - vm_compute. reflexivity.
  - vm_compute. reflexivity.
  - vm_compute. reflexivity.
  - split.
    + rewrite H1. vm_compute in H1. injection H1 as <- <- <-. reflexivity.
    + rewrite H2. vm_compute in H1. injection H1 as <- <- <-. reflexivity.
Defined.

(** X6: [ProductDetails] reads its eight keys and nothing else: adding,
    changing or removing any other key of the record (a snake-case
    spelling such as raw_price among them) leaves the outcome of the
    construction unchanged. *)
Theorem product_details_reads_only_its_eight_keys
    (data : gmap string pyval) (k : string) (v : pyval) :
  ~ In k product_keys ->
  ProductDetails.__init__ (<[k := v]> data) = ProductDetails.__init__ data /\
  ProductDetails.__init__ (delete k data) = ProductDetails.__init__ data.
Proof.
  intros Hk.
  assert (forall key, In key product_keys -> k <> key) as Hne.
  { intros key Hin ->. contradiction. }
  unfold ProductDetails.__init__, dict_get. split.
  - rewrite !lookup_insert_ne by (apply Hne; cbn; auto 10). reflexivity.
  - rewrite !lookup_delete_ne by (apply Hne; cbn; auto 10). reflexivity.
Qed.

Lemma product_details_reads_only_its_eight_keys_witness :
  ProductDetails.__init__ (<["raw_price" := PyInt 5]> MoreExamples.gems_record)
  = ProductDetails.__init__ MoreExamples.gems_record.
Proof.
  apply (product_details_reads_only_its_eight_keys MoreExamples.gems_record
           "raw_price" (PyInt 5)).
  intros Hin. cbn in Hin. repeat (destruct Hin as [Hin | Hin]; [discriminate Hin|]).
  exact Hin.
Defined.


(** X8: the platform guard issues no request and returns exactly when the
    control is on a page whose platform is Android or iOS.  Off a page it
    raises the failed assertion; on a page that has reported no platform
    it raises the [ValueError] of reading [page.platform]; on a page of
    any other platform it raises the unsupported-platform error. *)
Theorem guard_passes_exactly_on_mobile (self : InAppPurchase) (sent : list Request) :
  snd (_check_mobile_platform self sent) = sent /\
  (fst (_check_mobile_platform self sent) = Ok tt <-> attached_to_mobile self) /\
  (page self = None ->
   fst (_check_mobile_platform self sent) = Raise (AssertionError not_attached_msg)) /\
  (forall p, page self = Some p -> platform p = None ->
   fst (_check_mobile_platform self sent) = Raise (EnumValueError "PagePlatform" PyNone)) /\
  (forall p x, page self = Some p -> platform p = Some x -> x <> ANDROID -> x <> IOS ->
   fst (_check_mobile_platform self sent) = Raise (Exception unsupported_msg)).
Proof.
  split; [|split; [|split; [|split]]].
  - destruct (guard_rejects_or_attached self) as [Hrej | Hmob].
    + now rewrite (check_rejects self sent Hrej).
    + now rewrite (check_passes self sent Hmob).
  - destruct (guard_rejects_or_attached self) as [Hrej | Hmob].
    + rewrite (check_rejects self sent Hrej). cbn [fst]. split; [discriminate|].
      intros Hmob. now destruct (guard_rejects_not_attached self Hrej).
    + rewrite (check_passes self sent Hmob). cbn [fst]. split; auto.
  - intros Hnone. rewrite (check_rejects self sent (or_introl Hnone)).
    unfold guard_error. now rewrite Hnone.
  - intros p Hp Hnone.
    assert (guard_rejects self) as Hrej.
    { right. exists p. rewrite Hnone. split; [exact Hp|]. split; discriminate. }
    rewrite (check_rejects self sent Hrej). unfold guard_error. now rewrite Hp, Hnone.
  - intros p x Hp Hx Ha Hi.
    assert (guard_rejects self) as Hrej.
    { right. exists p. rewrite Hx. split; [exact Hp|]. split; congruence. }
    rewrite (check_rejects self sent Hrej). unfold guard_error. now rewrite Hp, Hx.
Qed.

Lemma guard_passes_exactly_on_mobile_witness :
  _check_mobile_platform Examples.android_control [] = (Ok tt, []) /\
  _check_mobile_platform Examples.fresh_control []
    = (Raise (AssertionError not_attached_msg), []) /\
  _check_mobile_platform MoreExamples.unreported_control []
    = (Raise (EnumValueError "PagePlatform" PyNone), []) /\
  _check_mobile_platform MoreExamples.tv_control []
    = (Raise (Exception unsupported_msg), []).
Proof.
  assert (forall self (r : result unit),
            snd (_check_mobile_platform self []) = [] ->
            fst (_check_mobile_platform self []) = r ->
            _check_mobile_platform self [] = (r, [])) as Hpair.
  { intros self r. destruct (_check_mobile_platform self []) as [r' sent'].
    cbn [fst snd]. now intros -> ->. }
  split; [|split; [|split]].
  - destruct (guard_passes_exactly_on_mobile Examples.android_control [])
      as (Hsent & Hok & _).
    apply Hpair; [exact Hsent | apply Hok, android_control_attached].
  - destruct (guard_passes_exactly_on_mobile Examples.fresh_control [])
      as (Hsent & _ & Hoff & _).
    apply Hpair; [exact Hsent | apply Hoff; reflexivity].
  - destruct (guard_passes_exactly_on_mobile MoreExamples.unreported_control [])
      as (Hsent & _ & _ & Hnone & _).
    apply Hpair; [exact Hsent | apply (Hnone MoreExamples.unreported_page); reflexivity].
  - destruct (guard_passes_exactly_on_mobile MoreExamples.tv_control [])
      as (Hsent & _ & _ & _ & Hother).
    apply Hpair; [exact Hsent|].
    apply (Hother MoreExamples.tv_page ANDROID_TV); [reflexivity | reflexivity | | ];
      discriminate.
Defined.

(** A text of white space only is no JSON value. *)
Lemma skip_ws_blank s : blank s = true -> Json.skip_ws s = "".
Proof.
  induction s as [|c r IH]; [reflexivity|]. cbn [blank Json.skip_ws].
  destruct (Json.is_ws c); [exact IH | discriminate].
Qed.

Lemma loads_blank s : blank s = true -> Json.loads s = Raise JSONDecodeError.
Proof.
  intros Hb. unfold Json.loads, Json.decode. rewrite (skip_ws_blank s Hb).
  replace (3 * String.length s + 3) with (S (3 * String.length s + 2)) by lia.
  reflexivity.
Qed.

(** What the [product_ids] property reads on a control that was
    constructed with [ids] and then added to a page. *)
Lemma product_ids_of_constructed (ids : pyval) (p : Page) :
  product_ids (attach p (InAppPurchase_init ids)) =
    match ids with
    | PyNone => PyList []
    | _ => ids
    end.
Proof.
  unfold product_ids, _get_attr, attach, InAppPurchase_init, set_product_ids, _set_attr.
  cbn [attrs page]. rewrite lookup_empty.
  destruct ids; unfold store_attr; cbn [attrs];
    rewrite ?lookup_insert_eq, ?lookup_empty; reflexivity.
Qed.

(** A command stops at a guard that rejects, with nothing issued. *)
Lemma rejected_command {A} (self : InAppPurchase) (sent : list Request) (k : unit -> M A) :
  guard_rejects self ->
  mbind (_check_mobile_platform self) k sent = (Raise (guard_error self), sent).
Proof. intros Hrej. apply mbind_raise, check_rejects, Hrej. Qed.

Section MoreCommandProperties.

Variable bridge : Request -> result (option string).

(** A command of one request, once the guard has passed. *)
Lemma one_request_command (self : InAppPurchase) (req : Request) (sent : list Request) :
  attached_to_mobile self ->
  (_check_mobile_platform self ;;; _ <~ invoke_method bridge req ;; ret tt) sent
  = (discard (bridge req), (sent ++ [req])%list).
Proof.
  intros Hmob. rewrite (mbind_ok _ _ sent tt sent (check_passes self sent Hmob)).
  unfold mbind, invoke_method, ret, discard. now destruct (bridge req).
Qed.

(** X9: on a supported platform, [initialize], [buy_product],
    [restore_purchases] and [finish_transaction] each issue exactly one
    request, after those issued before: the method of that name, with the
    product or transaction id as its only argument when it takes one, not
    waiting for a result.  The call gives back [None] whatever the bridge
    returned and raises what the bridge raised; the id is forwarded as
    given, unchecked. *)
Theorem simple_commands_issue_one_request
    (self : InAppPurchase) (sent : list Request) (product_id transaction_id : pyval) :
  attached_to_mobile self ->
  let request name args :=
    {| method_name := name; arguments := args;
       wait_for_result := false; wait_timeout := None |} in
  let outcome req := (discard (bridge req), (sent ++ [req])%list) in
  initialize bridge self sent = outcome (request "initialize" None) /\
  buy_product bridge self product_id sent
    = outcome (request "buy_product" (Some {[ "productId" := product_id ]})) /\
  restore_purchases bridge self sent = outcome (request "restore_purchases" None) /\
  finish_transaction bridge self transaction_id sent
    = outcome (request "finish_transaction" (Some {[ "transactionId" := transaction_id ]})).
Proof.
  intros Hmob request outcome. repeat split; apply one_request_command; exact Hmob.
Qed.

(** X11: a non-empty explicit argument of [query_products] overrides the
    configured default: the request carries the argument, whatever the
    [product_ids] of the control are. *)
Theorem explicit_ids_override_default
    (self : InAppPurchase) (ids : pyval) (sent : list Request) :
  attached_to_mobile self ->
  truthy ids = true ->
  query_products bridge self ids sent
  = (discard (bridge (query_products_request ids)),
     (sent ++ [query_products_request ids])%list).
Proof.
  intros Hmob Hids. rewrite (query_products_resolved bridge self ids sent Hmob).
  unfold py_or. rewrite Hids. cbv zeta. rewrite Hids. reflexivity.
Qed.

(** X10: no command issues more than one request or touches the requests
    issued before.  Five of the six issue none exactly when the guard
    rejects and one exactly when the control is on a supported platform;
    [query_products] also issues none when the resolved ID list is
    empty. *)
Theorem commands_issue_at_most_one_request
    (self : InAppPurchase) (sent : list Request)
    (ids product_id transaction_id : pyval) (wait_timeout_arg : option pyval) :
  let silent sent' := sent' = sent in
  let one sent' := exists req, sent' = (sent ++ [req])%list in
  let by_guard sent' :=
    (guard_rejects self /\ silent sent') \/ (attached_to_mobile self /\ one sent') in
  by_guard (snd (initialize bridge self sent)) /\
  by_guard (snd (buy_product bridge self product_id sent)) /\
  by_guard (snd (restore_purchases bridge self sent)) /\
  by_guard (snd (get_past_purchases bridge self wait_timeout_arg sent)) /\
  by_guard (snd (finish_transaction bridge self transaction_id sent)) /\
  (((guard_rejects self \/ truthy (py_or ids (product_ids self)) = false) /\
    silent (snd (query_products bridge self ids sent))) \/
   (attached_to_mobile self /\ truthy (py_or ids (product_ids self)) = true /\
    one (snd (query_products bridge self ids sent)))).
Proof.
  intros silent one by_guard.
  unfold initialize, buy_product, restore_purchases, finish_transaction.
  destruct (guard_rejects_or_attached self) as [Hrej | Hmob].
  - unfold get_past_purchases, query_products. cbv zeta.
    rewrite !(rejected_command self sent _ Hrej). cbn [snd].
    repeat split; left; split; auto; reflexivity.
  - rewrite !(one_request_command self _ sent Hmob),
      (get_past_purchases_reply bridge self wait_timeout_arg sent Hmob),
      (query_products_resolved bridge self ids sent Hmob).
    cbn [snd]. cbv zeta.
    repeat split; try (right; split; [exact Hmob | eexists; reflexivity]).
    destruct (truthy (py_or ids (product_ids self))); cbn [snd].
    + right. split; [exact Hmob|]. split; [reflexivity | eexists; reflexivity].
    + left. split; [right; reflexivity | reflexivity].
Qed.

(** X12: where an exception of [get_past_purchases] comes from.  When the
    call raises, either the guard rejected and nothing was issued, or the
    request was issued and then the bridge raised that exception, or the
    bridge answered a non-empty text on which [json.loads] raised that
    exception. *)
Theorem get_past_purchases_raises_from
    (self : InAppPurchase) (wait_timeout_arg : option pyval) (sent sent' : list Request)
    (x : exn) :
  get_past_purchases bridge self wait_timeout_arg sent = (Raise x, sent') ->
  let req := get_past_purchases_request
               (match wait_timeout_arg with Some t => t | None => PyInt 10 end) in
  (guard_rejects self /\ x = guard_error self /\ sent' = sent) \/
  (attached_to_mobile self /\ sent' = (sent ++ [req])%list /\
   (bridge req = Raise x \/
    exists s, bridge req = Ok (Some s) /\ s <> "" /\ Json.loads s = Raise x)).
Proof.
  intros Hraise req.
  destruct (guard_rejects_or_attached self) as [Hrej | Hmob].
  - left. unfold get_past_purchases in Hraise. cbv zeta in Hraise.
    rewrite (rejected_command self sent _ Hrej) in Hraise.
    injection Hraise as <- <-. auto.
  - right. split; [exact Hmob|].
    rewrite (get_past_purchases_reply bridge self wait_timeout_arg sent Hmob) in Hraise.
    fold req in Hraise. injection Hraise as Hout <-. split; [reflexivity|].
    destruct (bridge req) as [[s|]|y]; cbn in Hout.
    + right. destruct (String.eqb s "") eqn:Hs; [discriminate Hout|].
      cbn in Hout. exists s. split; [reflexivity|].
      split; [now apply String.eqb_neq | exact Hout].
    + discriminate Hout.
    + left. congruence.
Qed.

(** X13: [get_past_purchases] does not check that the answer is a list:
    when the bridge answers with a written record, the call returns that
    record as a [dict]. *)
Theorem past_purchases_may_be_a_record
    (self : InAppPurchase) (wait_timeout_arg : option pyval) (sent : list Request)
    (fields : list (string * string)) :
  attached_to_mobile self ->
  let req := get_past_purchases_request
               (match wait_timeout_arg with Some t => t | None => PyInt 10 end) in
  bridge req = Ok (Some (Json.dumps_record fields)) ->
  fst (get_past_purchases bridge self wait_timeout_arg sent)
  = Ok (PyDict (Json.record_dict fields)).
Proof.
  intros Hmob req Hreply.
  rewrite (get_past_purchases_reply bridge self wait_timeout_arg sent Hmob).
  fold req. rewrite Hreply. cbn [fst bind past_purchases_of].
  unfold Json.dumps_record at 1. rewrite JsonFacts.append_cons.
  cbn [String.eqb negb]. apply JsonFacts.loads_dumps_record.
Qed.

(** X14: an answer of white space only is not taken for an empty answer:
    it is a non-empty text, so it goes to the parser, and
    [get_past_purchases] raises [JSONDecodeError] after issuing its
    request. *)
Theorem blank_response_raises
    (self : InAppPurchase) (wait_timeout_arg : option pyval) (sent : list Request)
    (s : string) :
  attached_to_mobile self ->
  let req := get_past_purchases_request
               (match wait_timeout_arg with Some t => t | None => PyInt 10 end) in
  bridge req = Ok (Some s) ->
  s <> "" ->
  blank s = true ->
  get_past_purchases bridge self wait_timeout_arg sent
  = (Raise JSONDecodeError, (sent ++ [req])%list).
Proof.
  intros Hmob req Hreply Hne Hblank.
  rewrite (get_past_purchases_reply bridge self wait_timeout_arg sent Hmob).
  fold req. rewrite Hreply. cbn [bind past_purchases_of].
  apply String.eqb_neq in Hne. rewrite Hne. cbn [negb].
  now rewrite (loads_blank s Hblank).
Qed.

(** X15: the IDs given to the constructor are the default of
    [query_products]: on a control built with [product_ids=ids] and added
    to an Android or iOS page, [query_products()] issues the request for
    [ids] when [ids] is non-empty, and raises the validation error,
    issuing nothing, when it is empty or [None]. *)
Theorem constructed_ids_are_the_default (ids : pyval) (p : Page) (sent : list Request) :
  platform p = Some ANDROID \/ platform p = Some IOS ->
  let self := attach p (InAppPurchase_init ids) in
  (truthy ids = true ->
   query_products bridge self PyNone sent
   = (discard (bridge (query_products_request ids)),
      (sent ++ [query_products_request ids])%list)) /\
  (truthy ids = false ->
   query_products bridge self PyNone sent = (Raise (ValueError no_ids_msg), sent)).
Proof.
  intros Hp self.
  assert (attached_to_mobile self) as Hmob by (exists p; split; [reflexivity | exact Hp]).
  rewrite (query_products_resolved bridge self PyNone sent Hmob).
  unfold py_or. cbn [truthy]. cbv zeta.
  pose proof (product_ids_of_constructed ids p) as Hids. fold self in Hids.
  split; intros Ht.
  - rewrite Hids. destruct ids; try discriminate Ht; rewrite ?Ht; reflexivity.
  - rewrite Hids. destruct ids; try reflexivity; rewrite Ht; reflexivity.
Qed.

End MoreCommandProperties.

Lemma simple_commands_issue_one_request_witness :
  initialize (Examples.constant_bridge "ok") Examples.android_control []
    = (Ok tt, [initialize_request]) /\
  buy_product (Examples.constant_bridge "ok") Examples.android_control (PyStr "coins") []
    = (Ok tt, [buy_product_request (PyStr "coins")]) /\
  restore_purchases (Examples.constant_bridge "ok") Examples.android_control []
    = (Ok tt, [restore_purchases_request]) /\
  finish_transaction (Examples.constant_bridge "ok") Examples.android_control (PyStr "t1") []
    = (Ok tt, [finish_transaction_request (PyStr "t1")]).
Proof.
  exact (simple_commands_issue_one_request (Examples.constant_bridge "ok")
           Examples.android_control [] (PyStr "coins") (PyStr "t1")
           android_control_attached).
Defined.

Lemma explicit_ids_override_default_witness :
  query_products Examples.silent_bridge Examples.ab_control MoreExamples.c_ids []
  = (Ok tt, [query_products_request MoreExamples.c_ids]).
Proof.
  apply (explicit_ids_override_default Examples.silent_bridge Examples.ab_control
           MoreExamples.c_ids [] ab_control_attached).
  reflexivity.
Defined.

Lemma get_past_purchases_raises_from_witness :
  get_past_purchases MoreExamples.failing_bridge Examples.android_control None []
    = (Raise (BridgeError "store unavailable"), [get_past_purchases_request (PyInt 10)]) /\
  MoreExamples.failing_bridge (get_past_purchases_request (PyInt 10))
    = Raise (BridgeError "store unavailable").
Proof.
  assert (get_past_purchases MoreExamples.failing_bridge Examples.android_control None []
          = (Raise (BridgeError "store unavailable"),
             [get_past_purchases_request (PyInt 10)])) as Hraise
    by (vm_compute; reflexivity).
  split; [exact Hraise|].
  destruct (get_past_purchases_raises_from MoreExamples.failing_bridge
              Examples.android_control None [] _ _ Hraise)
    as [(_ & Hx & _) | (_ & _ & [Hb | (s & Hs & _)])].
  - vm_compute in Hx. discriminate Hx.
  - exact Hb.
  - discriminate Hs.
Defined.

Lemma past_purchases_may_be_a_record_witness :
  fst (get_past_purchases
         (Examples.constant_bridge (Json.dumps_record MoreExamples.canceled_record))
         Examples.android_control None [])
  = Ok (PyDict (Json.record_dict MoreExamples.canceled_record)).
Proof.
  apply (past_purchases_may_be_a_record
           (Examples.constant_bridge (Json.dumps_record MoreExamples.canceled_record))
           Examples.android_control None [] MoreExamples.canceled_record
           android_control_attached).
  reflexivity.
Defined.

Lemma blank_response_raises_witness :
  get_past_purchases (Examples.constant_bridge "  ") Examples.android_control None []
  = (Raise JSONDecodeError, [get_past_purchases_request (PyInt 10)]).
Proof.
  apply (blank_response_raises (Examples.constant_bridge "  ") Examples.android_control
           None [] "  " android_control_attached).
  - reflexivity.
  - discriminate.
  - reflexivity.
Defined.

Lemma constructed_ids_are_the_default_witness :
  query_products Examples.silent_bridge
    (attach Examples.android_page (InAppPurchase_init Examples.ab_ids)) PyNone []
  = (Ok tt, [query_products_request Examples.ab_ids]) /\
  query_products Examples.silent_bridge
    (attach Examples.ios_page (InAppPurchase_init (PyList []))) PyNone []
  = (Raise (ValueError no_ids_msg), []).
Proof.
  split.
  - apply (constructed_ids_are_the_default Examples.silent_bridge Examples.ab_ids
             Examples.android_page []); [left; reflexivity | reflexivity].
  - apply (constructed_ids_are_the_default Examples.silent_bridge (PyList [])
             Examples.ios_page []); [right; reflexivity | reflexivity].
Defined.

(** X16: a decoded event feeds [finish_transaction]: decoding a written
    purchase record and finishing the transaction of the event issues the
    [finish_transaction] request whose [transactionId] is the transaction
    text of the record. *)
Theorem finish_decoded_transaction
    (bridge : Request -> result (option string))
    (self : InAppPurchase) (sent : list Request) (e : ControlEvent.t)
    (m : PurchaseStatus) (product transaction : string) :
  attached_to_mobile self ->
  ControlEvent.data e =
    Json.dumps_record [("status", PurchaseStatus_value m); ("productId", product);
                       ("transactionId", transaction)] ->
  (ev <- PurchaseEvent.__init__ e ;;
   Ok (finish_transaction bridge self (PurchaseEvent.transaction_id ev) sent))
  = Ok (discard (bridge (finish_transaction_request (PyStr transaction))),
        (sent ++ [finish_transaction_request (PyStr transaction)])%list).
Proof.
  intros Hmob Hdata.
  rewrite (purchase_record_round_trip m product transaction e Hdata).
  cbn [bind PurchaseEvent.transaction_id].
  unfold finish_transaction. now rewrite (one_request_command bridge self _ sent Hmob).
Qed.

Lemma finish_decoded_transaction_witness :
  (ev <- PurchaseEvent.__init__
           (Examples.purchase_updated
              (Json.dumps_record [("status", "purchased"); ("productId", "coins");
                                  ("transactionId", "t1")])) ;;
   Ok (finish_transaction Examples.silent_bridge Examples.ios_control
         (PurchaseEvent.transaction_id ev) []))
  = Ok (Ok tt, [finish_transaction_request (PyStr "t1")]).
Proof.
  apply (finish_decoded_transaction Examples.silent_bridge Examples.ios_control []
           _ PURCHASED "coins" "t1" ios_control_attached).
  reflexivity.
Defined.
